(** * models_logging.models: the change log of tracked records

    A shallow embedding of [src/models_logging/models.py]: the two tables
    [Revision] and [Changes], the history query, the revert engine and the
    two history-patch operations, over an explicit model of the database
    (live records, change entries, revisions).

    The persistence layer (the ORM, the JSON codec, the generic foreign key)
    is not part of the module.  What depends on the classes of the tracked
    models (the conversion of keys, the deserializer, the serializer, the
    deletion of a row with what refers to it) is a parameter of the
    development; the rest is modelled below, next to a note that says
    which behaviour of the framework it stands for.  The source imports
    [django.core.urlresolvers] and declares a foreign key without
    [on_delete], so it runs on the 1.x line of the framework only; the
    primitives follow that line. *)

From stdpp Require Import base option list sorting strings gmap fin_maps pretty.
From Stdlib Require Import ZArith Lia Ascii.

Local Open Scope Z_scope.
Local Open Scope string_scope.
Local Open Scope list_scope.
Local Set Warnings "-register-all".

(** ** Exceptions and results *)

(** The exception classes that the modelled code paths can raise.
    [NoPrevChangesError] is the one class the module defines itself
    (line 18); the others are Python's or the framework's. *)
Inductive Exc : Type :=
  | AttributeError
  | TypeError
  | ValueError
  | KeyError
  | IndexError
  | StopIteration
  | DoesNotExist
  | MultipleObjectsReturned
  | DeserializationError
  | NoPrevChangesError.

#[global] Instance Exc_eq_dec : EqDecision Exc.
Proof. solve_decision. Defined.

Inductive result (A : Type) : Type :=
  | Ok (a : A)
  | Raise (e : Exc).
Arguments Ok {A} a.
Arguments Raise {A} e.

(** ** JSON values and text columns *)

(** What [json.loads] returns.  A Python dict keeps its keys in
    insertion order and [json.dumps] writes them in that order, so an
    object is an association list (with distinct keys when it comes from
    the parser).  Floating point numbers are left out. *)
Inductive json : Type :=
  | JNull
  | JBool (b : bool)
  | JNum (n : Z)
  | JStr (s : string)
  | JArr (items : list json)
  | JObj (members : list (string * json)).

Abbreviation dict := (list (string * json)).

(** The content of a text column that is meant to hold JSON: either the
    output of [json.dumps] on a value, or some text the parser rejects.
    Only what [json.loads] makes of a text is observable by the module, so
    a text is identified with it. *)
Inductive text : Type :=
  | Dumps (j : json)
  | Garbled (raw : string).

(** [json.loads(s)]: [None] is not a string ([TypeError]), text that is not
    JSON raises [ValueError]. *)
Definition json_loads (s : option text) : result json :=
  match s with
  | None => Raise TypeError
  | Some (Garbled _) => Raise ValueError
  | Some (Dumps j) => Ok j
  end.

Definition json_dumps (j : json) : text := Dumps j.

(** *** Python dict operations on an object's members *)

(** [d.get(k)]; [k in d] is [is_Some (dict_get k d)]. *)
Fixpoint dict_get (k : string) (d : dict) : option json :=
  match d with
  | [] => None
  | (k', v) :: rest => if String.eqb k k' then Some v else dict_get k rest
  end.

Definition dict_contains (k : string) (d : dict) : bool :=
  match dict_get k d with Some _ => true | None => false end.

(** [d[k] = v]: the value is replaced where the key stands, a new key
    goes to the end. *)
Fixpoint dict_set (k : string) (v : json) (d : dict) : dict :=
  match d with
  | [] => [(k, v)]
  | (k', v') :: rest =>
      if String.eqb k k' then (k, v) :: rest else (k', v') :: dict_set k v rest
  end.

(** [d.pop(k, None)], for its effect on [d]. *)
Fixpoint dict_pop (k : string) (d : dict) : dict :=
  match d with
  | [] => []
  | (k', v') :: rest =>
      if String.eqb k k' then dict_pop k rest else (k', v') :: dict_pop k rest
  end.

(** ** Records of the database *)

(** An instance of a tracked model: its content type, its primary key
    (as the text that [Changes.object_id] stores) and its field values. *)
Record Obj : Type := mkObj {
  obj_ct : Z;
  obj_pk : string;
  obj_fields : dict
}.

(** [class Revision] (lines 22-42).  [date_created] is filled by the clock
    and read by [__str__] only; it is not modelled. *)
Record Revision : Type := mkRevision {
  rev_id : Z;
  rev_comment : option string
}.

(** [class Changes] (lines 47-67).  The columns [date_created], [user] and
    [object_repr] are read by no method below and are left out. *)
Record Changes : Type := mkChanges {
  id : Z;
  comment : string;
  object_id : string;
  content_type_id : Z;
  db : string;
  serialized_data : option text;
  revision_id : option Z;
  action : string
}.

(** The database: the rows of the tracked models, keyed by content type
    and primary key, and the two tables of the module. *)
Record Store : Type := mkStore {
  live : gmap (Z * string) dict;
  history : list Changes;
  revisions : list Revision
}.

Definition set_live (f : gmap (Z * string) dict -> gmap (Z * string) dict)
    (st : Store) : Store :=
  mkStore (f (live st)) (history st) (revisions st).

Definition set_history (f : list Changes -> list Changes) (st : Store) : Store :=
  mkStore (live st) (f (history st)) (revisions st).

Definition set_revisions (f : list Revision -> list Revision) (st : Store) : Store :=
  mkStore (live st) (history st) (f (revisions st)).

(** ** Computations over the database *)

(** A method runs against the database and either returns or raises; the
    writes made before an exception stay, unless a transaction undoes
    them. *)
Definition M (A : Type) : Type := Store -> result A * Store.

Definition ret {A} (a : A) : M A := fun st => (Ok a, st).

Definition raise {A} (e : Exc) : M A := fun st => (Raise e, st).

Definition bind {A B} (m : M A) (k : A -> M B) : M B :=
  fun st =>
    match m st with
    | (Ok a, st') => k a st'
    | (Raise e, st') => (Raise e, st')
    end.

Notation "x <- m ;; k" := (bind m (fun x => k))
  (at level 100, m at next level, right associativity).
Notation "m ;;; k" := (bind m (fun _ => k))
  (at level 100, right associativity).

Definition lift {A} (r : result A) : M A := fun st => (r, st).

Definition modify (f : Store -> Store) : M unit := fun st => (Ok tt, f st).

(** [with transaction.atomic():] an exception that leaves the block rolls
    the database back to where the block started. *)
Definition atomic {A} (body : M A) : M A :=
  fun st =>
    match body st with
    | (Ok a, st') => (Ok a, st')
    | (Raise e, _) => (Raise e, st)
    end.

(** [try: body except E: handler]. *)
Definition try_except {A} (body : M A) (E : Exc) (handler : M A) : M A :=
  fun st =>
    match body st with
    | (Raise e, st') => if decide (e = E) then handler st' else (Raise e, st')
    | r => r
    end.

(** [for x in xs: body(x)]. *)
Fixpoint for_each {A} (xs : list A) (body : A -> M unit) : M unit :=
  match xs with
  | [] => ret tt
  | x :: rest => body x ;;; for_each rest body
  end.

(** ** The persistence layer *)

(** An object as the deserializer builds it, not yet saved: its key is
    the one the blob carries, if it carries one. *)
Record Instance : Type := mkInstance {
  inst_ct : Z;
  inst_pk : option string;
  inst_fields : dict
}.

(** What the module takes from the framework and from the tracked models
    of the application it is installed in.  None of it is in the module's
    source, and all of it depends on the classes of the tracked models, so
    it is a parameter of everything below.

    - [to_python ct value]: the primary-key field of the model converts a
      lookup value to the key as the table holds it, or raises (an integer
      key refuses text that is not a number, and reads "01" as 1);
    - [deserialize_next s]: [next(deserialize('json', s)).object], the
      first object of the stream as the framework's deserializer builds it
      after checking model, key and fields against the model class;
    - [serialize obj]: [serialize('json', [obj])];
    - [assign_key rows ct]: the key the database gives to a new row of
      the model that is saved without one;
    - [collect_delete rows key]: the rows that are left when
      [obj.delete()] has removed the row and dealt with the rows that
      refer to it as their foreign keys declare (by default they are
      deleted with it); the row itself is gone afterwards.

    Refusals by the persistence layer (a constraint that a write or a
    deletion violates, a protected foreign key among them) are outside
    the model: the module passes them on as they come. *)
Record Framework : Type := mkFramework {
  to_python : Z -> string -> result string;
  deserialize_next : option text -> result Instance;
  serialize : Obj -> text;
  assign_key : gmap (Z * string) dict -> Z -> result string;
  collect_delete : gmap (Z * string) dict -> Z * string -> gmap (Z * string) dict;
  collect_delete_removes :
    forall rows key, collect_delete rows key !! key = None
}.

(** [Meta.ordering = ("-pk",)] (line 49): every query on [Changes] yields
    its rows by descending identifier. *)
Definition newest_first (a b : Changes) : Prop := id b <= id a.

#[global] Instance newest_first_dec : RelDecision newest_first.
Proof. intros a b; unfold newest_first; apply _. Defined.

Definition order_by_pk_desc (rows : list Changes) : list Changes :=
  merge_sort newest_first rows.

(** [Changes.objects.filter(...)], evaluated. *)
Definition Changes_filter (P : Changes -> Prop) `{!forall c, Decision (P c)}
    : M (list Changes) :=
  fun st => (Ok (order_by_pk_desc (filter P (history st))), st).

(** [queryset.first()]. *)
Definition first {A} (rows : list A) : option A := head rows.

(** [self.save()] on a change entry: the row with this identifier is
    rewritten, and inserted when the table has no such row. *)
Definition Changes_save (self : Changes) : M unit :=
  modify (set_history (fun rows =>
    if decide (Exists (fun c => id c = id self) rows)
    then (fun c => if decide (id c = id self) then self else c) <$> rows
    else rows ++ [self])).

(** The key that a stored reference (the value of a foreign-key field of
    a live row) points to, as text. *)
Definition reference_key (j : json) : option string :=
  match j with
  | JStr s => Some s
  | JNum n => Some (pretty n)
  | _ => None
  end.

(** [x[0]] on a parsed JSON value. *)
Definition subscript0 (x : json) : result json :=
  match x with
  | JArr [] => Raise IndexError
  | JArr (item :: _) => Ok item
  | JObj _ => Raise KeyError
  | JStr EmptyString => Raise IndexError
  | JStr (String c _) => Ok (JStr (String c EmptyString))
  | JNull | JBool _ | JNum _ => Raise TypeError
  end.

(** Calling a method on what may be [None]: [None.delete()] and the like
    raise [AttributeError]. *)
Definition call_on {A B} (receiver : option A) (method : A -> M B) : M B :=
  match receiver with
  | Some a => method a
  | None => raise AttributeError
  end.

Section Registry.

Variable fw : Framework.

(** [Model.objects.get(pk=...)]: the value is converted by the key field
    (a conversion error leaves as it is), then the row with that key is
    fetched, [DoesNotExist] when there is none. *)
Definition objects_get (ct : Z) (pk : string) : M Obj :=
  key <- lift (to_python fw ct pk) ;;
  fun st =>
    match live st !! (ct, key) with
    | Some fields => (Ok (mkObj ct key fields), st)
    | None => (Raise DoesNotExist, st)
    end.

(** Reading a [GenericForeignKey] (line 61): the descriptor looks the row
    up through the content type and catches [ObjectDoesNotExist], and
    nothing else, so a reference to a missing row reads as [None].  The
    copy that the descriptor keeps on the instance after the first read
    is not modelled: every read goes to the database. *)
Definition GenericForeignKey_get (ct : Z) (pk : string) : M (option Obj) :=
  try_except (o <- objects_get ct pk ;; ret (Some o)) DoesNotExist (ret None).

(** [obj.save()] on an object fetched from the database: its row is
    written. *)
Definition Obj_save (o : Obj) : M unit :=
  modify (set_live (insert (obj_ct o, obj_pk o) (obj_fields o))).

(** [obj.save()] on a decoded object: it is written under its key; when
    it has none the database gives it one, which the object keeps. *)
Definition Instance_save (i : Instance) : M Obj :=
  match inst_pk i with
  | Some key =>
      let o := mkObj (inst_ct i) key (inst_fields i) in
      Obj_save o ;;; ret o
  | None =>
      rows <- (fun st => (Ok (live st), st)) ;;
      key <- lift (assign_key fw rows (inst_ct i)) ;;
      let o := mkObj (inst_ct i) key (inst_fields i) in
      Obj_save o ;;; ret o
  end.

(** [obj.delete()]. *)
Definition Obj_delete (o : Obj) : M unit :=
  modify (set_live (fun rows => collect_delete fw rows (obj_ct o, obj_pk o))).

(** The identifier an auto-incremented key gives to the next row. *)
Definition next_id (rows : list Changes) : Z :=
  1 + foldr Z.max 0 (id <$> rows).

(** Modelled from the spec: [create_changes] of [models_logging.revisions]
    is imported on line 15 and its source is not available.  Following
    sections 3 and 4.6 of the specification it records one new change
    entry for the object: a fresh identifier larger than every existing
    one, the object's type identifier and primary key, its snapshot, the
    database tag, the comment and the action kind it is given, and no
    revision. *)
Definition create_changes (obj : Obj) (using_db comment action : string) : M unit :=
  modify (set_history (fun rows =>
    rows ++ [mkChanges (next_id rows) comment (obj_pk obj) (obj_ct obj) using_db
                       (Some (serialize fw obj)) None action])).

(** ** class Changes: methods *)

Definition with_serialized_data (self : Changes) (s : option text) : Changes :=
  mkChanges (id self) (comment self) (object_id self) (content_type_id self)
            (db self) s (revision_id self) (action self).

(** [self.object] (line 61). *)
Definition Changes_object (self : Changes) : M (option Obj) :=
  GenericForeignKey_get (content_type_id self) (object_id self).

(** [get_object] (lines 137-138). *)
Definition Changes_get_object (self : Changes) : M Instance :=
  lift (deserialize_next fw (serialized_data self)).

(** [prev_changes] (lines 101-104). *)
Definition Changes_prev_changes (self : Changes) : M (option Changes) :=
  rows <- Changes_filter (fun c => content_type_id c = content_type_id self
                                   /\ object_id c = object_id self
                                   /\ id c < id self) ;;
  ret (first rows).

(** [revert] (lines 106-120). *)
Definition Changes_revert (self : Changes) : M unit :=
  atomic (
    if decide (action self = "Added") then
      target <- Changes_object self ;;
      call_on target Obj_delete
    else if decide (action self = "Deleted") then
      obj <- Changes_get_object self ;;
      obj <- Instance_save obj ;;
      create_changes obj "default" "Recover object" "Added"
    else
      try_except
        (prev <- Changes_prev_changes self ;;
         target <- call_on prev Changes_object ;;
         call_on target Obj_save)
        AttributeError
        (raise NoPrevChangesError)).

(** [data[attr] = value] or [data['fields'][attr] = value] (lines 124-127),
    on the value that [json.loads(...)[0]] gave.  On a list or a string the
    membership test goes either way and the subscript that follows is
    refused with [TypeError]; null, booleans and numbers cannot be tested
    for membership at all. *)
Definition set_item (attr : string) (value : json) (data : json) : result json :=
  match data with
  | JObj d =>
      if dict_contains attr d then Ok (JObj (dict_set attr value d))
      else
        match dict_get "fields" d with
        | None => Raise KeyError
        | Some (JObj fields) =>
            Ok (JObj (dict_set "fields" (JObj (dict_set attr value fields)) d))
        | Some _ => Raise TypeError
        end
  | _ => Raise TypeError
  end.

(** [data['fields'].pop(attr, None)] (line 133).  The nested mapping is
    changed in place, so [data] holds the changed mapping afterwards.  A
    list refuses the two-argument [pop]; strings, numbers, booleans and
    null have no [pop]. *)
Definition pop_field (attr : string) (data : json) : result json :=
  match data with
  | JObj d =>
      match dict_get "fields" d with
      | None => Raise KeyError
      | Some (JObj fields) =>
          Ok (JObj (dict_set "fields" (JObj (dict_pop attr fields)) d))
      | Some (JArr _) => Raise TypeError
      | Some _ => Raise AttributeError
      end
  | _ => Raise TypeError
  end.

(** [set_attr] (lines 122-129).  The method changes [self] and saves it;
    the changed [self] is returned. *)
Definition Changes_set_attr (self : Changes) (attr : string) (value : json)
    : M Changes :=
  parsed <- lift (json_loads (serialized_data self)) ;;
  data <- lift (subscript0 parsed) ;;
  data <- lift (set_item attr value data) ;;
  let self := with_serialized_data self (Some (json_dumps (JArr [data]))) in
  Changes_save self ;;;
  ret self.

(** [del_attr] (lines 131-135), likewise. *)
Definition Changes_del_attr (self : Changes) (attr : string) : M Changes :=
  parsed <- lift (json_loads (serialized_data self)) ;;
  data <- lift (subscript0 parsed) ;;
  data <- lift (pop_field attr data) ;;
  let self := with_serialized_data self (Some (json_dumps (JArr [data]))) in
  Changes_save self ;;;
  ret self.

(** *** The history query *)

(** A reverse relation of a model, as [model._meta.related_objects] lists
    them: whether its field is a [OneToOneField], the content type of the
    model that declares the field, and the name of the field, which holds
    the primary key of the row it refers to. *)
Record Rel : Type := mkRel {
  rel_one_to_one : bool;
  rel_related_model : Z;
  rel_field : string
}.

(** A model class: [ContentType.objects.get_for_model(model).id] and
    [model._meta.related_objects]. *)
Record Model : Type := mkModel {
  model_ct : Z;
  related_objects : list Rel
}.

(** The third argument of [get_changes_by_obj]: the string ['__all__'] or
    a list of relations. *)
Inductive RelatedArg : Type :=
  | all_related
  | these_related (rels : list Rel).

Definition refers_to (rel : Rel) (obj : Obj) (row : Z * string * dict) : Prop :=
  row.1.1 = rel_related_model rel
  /\ dict_get (rel_field rel) row.2 ≫= reference_key = Some (obj_pk obj).

#[global] Instance refers_to_dec rel obj row : Decision (refers_to rel obj row).
Proof. unfold refers_to; apply _. Defined.

(** [getattr(obj, accessor).all().values_list('pk', flat=True)]: the
    primary keys of the rows of the related model that refer to [obj]. *)
Definition related_pks (rel : Rel) (obj : Obj) : M (list string) :=
  fun st =>
    (Ok ((fun row : Z * string * dict => row.1.2)
           <$> filter (refers_to rel obj) (map_to_list (live st))), st).

(** [getattr(obj, accessor).pk] for a one-to-one relation: the one row
    that refers to [obj]; [DoesNotExist] of the related model when there
    is none. *)
Definition related_pk (rel : Rel) (obj : Obj) : M string :=
  pks <- related_pks rel obj ;;
  match pks with
  | [] => raise DoesNotExist
  | [pk] => ret pk
  | _ => raise MultipleObjectsReturned
  end.

(** A loop that carries a value from one round to the next. *)
Fixpoint for_fold {A S} (xs : list A) (body : S -> A -> M S) (s : S) : M S :=
  match xs with
  | [] => ret s
  | x :: rest => s' <- body s x ;; for_fold rest body s'
  end.

(** One round of the loop of lines 86-95; [None] stands for [continue]. *)
Definition collect_related (obj : Obj) (history_objects : gmap Z (list string))
    (rel_model : Rel) : M (gmap Z (list string)) :=
  values <- (if rel_one_to_one rel_model
             then try_except (pk <- related_pk rel_model obj ;; ret (Some [pk]))
                             DoesNotExist (ret None)
             else pks <- related_pks rel_model obj ;; ret (Some pks)) ;;
  match values with
  | None => ret history_objects
  | Some values =>
      let key := rel_related_model rel_model in
      ret (<[key := values]> history_objects)
  end.

(** The filter built on lines 96-98: an entry matches when it matches one
    item of [history_objects]. *)
Definition Q_matches (history_objects : gmap Z (list string)) (c : Changes) : Prop :=
  Exists (fun item : Z * list string =>
            content_type_id c = item.1 /\ object_id c ∈ item.2)
         (map_to_list history_objects).

#[global] Instance Q_matches_dec h c : Decision (Q_matches h c).
Proof. unfold Q_matches; apply _. Defined.

(** [get_changes_by_obj] (lines 72-99); the queryset it returns is
    evaluated at once. *)
Definition Changes_get_changes_by_obj (model : Model) (obj_id : string)
    (related : RelatedArg) : M (list Changes) :=
  obj <- objects_get (model_ct model) obj_id ;;
  let history_objects : gmap Z (list string) := {[ model_ct model := [obj_id] ]} in
  let related :=
    match related with
    | all_related => related_objects model
    | these_related rels => rels
    end in
  history_objects <- for_fold related (collect_related obj) history_objects ;;
  Changes_filter (Q_matches history_objects).

(** ** class Revision: methods *)

(** [self.changes_set.all()]: the entries whose [revision] is this one. *)
Definition Revision_changes_set (self : Revision) : M (list Changes) :=
  Changes_filter (fun c => revision_id c = Some (rev_id self)).

(** [revert] (lines 40-42). *)
Definition Revision_revert (self : Revision) : M unit :=
  changes <- Revision_changes_set self ;;
  for_each changes Changes_revert.

(** What the framework does with the rows that refer to a deleted row.  A
    [ForeignKey] declared without [on_delete] cascades. *)
Inductive OnDelete : Type :=
  | CASCADE
  | SET_NULL.

Definition ForeignKey_on_delete (declared : option OnDelete) : OnDelete :=
  default CASCADE declared.

(** Line 66: [revision = models.ForeignKey(Revision, blank=True, null=True,
    verbose_name='to revision')], no [on_delete]. *)
Definition Changes_revision_on_delete : OnDelete := ForeignKey_on_delete None.

Definition with_revision_id (c : Changes) (r : option Z) : Changes :=
  mkChanges (id c) (comment c) (object_id c) (content_type_id c)
            (db c) (serialized_data c) r (action c).

(** [revision.delete()], inherited from [models.Model]: the rows of
    [Changes] that refer to the revision are handled as the foreign key
    says, then the revision's row is removed. *)
Definition Revision_delete (self : Revision) : M unit :=
  modify (set_history
    match Changes_revision_on_delete with
    | CASCADE => filter (fun c => revision_id c <> Some (rev_id self))
    | SET_NULL =>
        fmap (fun c => if decide (revision_id c = Some (rev_id self))
                       then with_revision_id c None else c)
    end) ;;;
  modify (set_revisions (filter (fun r => rev_id r <> rev_id self))).

End Registry.

(** * Vocabulary of the statements *)

(** [c] records the same object as [self]. *)
Definition same_record (self c : Changes) : Prop :=
  content_type_id c = content_type_id self /\ object_id c = object_id self.

(** The entries recorded for one object, in table order. *)
Definition history_of (ct : Z) (pk : string) (st : Store) : list Changes :=
  filter (fun c => content_type_id c = ct /\ object_id c = pk) (history st).

(** What running the revert engine over a list of entries, one after the
    other, comes to: each entry is reverted in the database its
    predecessors left, and the first one that raises ends the run with
    its exception, the entries after it untouched. *)
Inductive reverts_in_order (fw : Framework)
    : list Changes -> Store -> result unit * Store -> Prop :=
  | reverts_none st :
      reverts_in_order fw [] st (Ok tt, st)
  | reverts_next c rest st st1 out :
      Changes_revert fw c st = (Ok tt, st1) ->
      reverts_in_order fw rest st1 out ->
      reverts_in_order fw (c :: rest) st out
  | reverts_abort c rest st e st1 :
      Changes_revert fw c st = (Raise e, st1) ->
      reverts_in_order fw (c :: rest) st (Raise e, st1).

(** The snapshot format of section 4.2 of the specification: a
    one-element sequence holding one record that carries the type
    identifier, the primary key and the mapping of field names to
    values. *)
Definition valid_snapshot (s : option text) : Prop :=
  exists data fields,
    s = Some (Dumps (JArr [JObj data]))
    /\ is_Some (dict_get "model" data)
    /\ is_Some (dict_get "pk" data)
    /\ dict_get "fields" data = Some (JObj fields).

(** The first three lines of both patch operations, up to the change of
    the record: parse the blob, take its first element, change it. *)
Definition patched_record (change : json -> result json) (s : option text)
    : result json :=
  match json_loads s with
  | Raise e => Raise e
  | Ok parsed =>
      match subscript0 parsed with
      | Raise e => Raise e
      | Ok data => change data
      end
  end.

(** The primary keys that [related_pks] reads from the live rows. *)
Definition referring_pks (rel : Rel) (obj : Obj) (st : Store) : list string :=
  (fun row : Z * string * dict => row.1.2)
    <$> filter (refers_to rel obj) (map_to_list (live st)).

(** The live row [pk] of the relation's model refers to [target] through
    the relation's field. *)
Definition row_refers (st : Store) (rel : Rel) (pk target : string) : Prop :=
  exists row,
    live st !! (rel_related_model rel, pk) = Some row
    /\ dict_get (rel_field rel) row ≫= reference_key = Some target.

(** * A sample database

    Concrete models, rows and entries on which the definitions above are
    evaluated. *)

Module Sample.

(** *** The sample application

    Four models with integer keys: their labels, content types and field
    names.  An author has at most one profile (content type 6, declared
    by a model that is not installed here) and any number of books;
    categories form a tree through their [parent] field.  No foreign key
    says what happens on deletion, so deletions cascade. *)
Definition apps : list (string * Z * list string) :=
  [("library.author", 7, ["name"]);
   ("library.book", 8, ["title"; "author"]);
   ("shop.category", 5, ["parent"]);
   ("garage.car", 9, ["model"; "year"])].

Definition relations (ct : Z) : list Rel :=
  if decide (ct = 7) then [mkRel true 6 "author"; mkRel false 8 "author"]
  else if decide (ct = 5) then [mkRel false 5 "parent"]
  else [].

(** Python's [int(text)] on plain text: blanks around, a sign, decimal
    digits. *)
Definition digit_of (c : Ascii.ascii) : option Z :=
  let n := Z.of_nat (Ascii.nat_of_ascii c) in
  if decide (48 <= n <= 57) then Some (n - 48) else None.

Definition is_blank (c : Ascii.ascii) : bool :=
  let n := Z.of_nat (Ascii.nat_of_ascii c) in
  bool_decide (n = 32 \/ 9 <= n <= 13).

Fixpoint digits (s : string) (acc : Z) : option Z :=
  match s with
  | EmptyString => Some acc
  | String c rest =>
      match digit_of c with
      | Some d => digits rest (10 * acc + d)
      | None => None
      end
  end.

Definition numeral (s : string) : option Z :=
  match s with
  | EmptyString => None
  | _ => digits s 0
  end.

Fixpoint lstrip (s : string) : string :=
  match s with
  | String c rest => if is_blank c then lstrip rest else s
  | EmptyString => EmptyString
  end.

Fixpoint rstrip (s : string) : string :=
  match s with
  | String c rest =>
      match rstrip rest with
      | EmptyString => if is_blank c then EmptyString else String c EmptyString
      | kept => String c kept
      end
  | EmptyString => EmptyString
  end.

Definition int_of_text (s : string) : option Z :=
  match rstrip (lstrip s) with
  | String "-"%char rest => Z.opp <$> numeral rest
  | String "+"%char rest => numeral rest
  | digits_only => numeral digits_only
  end.

(** The key field of every sample model is an integer field. *)
Definition key_of_text (ct : Z) (s : string) : result string :=
  match int_of_text s with
  | Some n => Ok (pretty n)
  | None => Raise ValueError
  end.

Definition model_of_label (label : string) : option (Z * list string) :=
  (fun entry : string * Z * list string => (entry.1.2, entry.2))
    <$> head (filter (fun entry : string * Z * list string => entry.1.1 = label) apps).

Definition label_of_model (ct : Z) : string :=
  default "" ((fun entry : string * Z * list string => entry.1.1)
                <$> head (filter (fun entry : string * Z * list string =>
                                    entry.1.2 = ct) apps)).

(** The deserializer of the sample application on one record of a
    stream: the model is looked up by its label, every field name must be
    a field of the model, the key, when the record has one, is converted
    by the key field.  Every failure inside the deserializer surfaces as
    [DeserializationError].  The values of the fields are taken as they
    are: the sample blobs hold values of the fields' own types, which the
    fields' conversions leave unchanged. *)
Definition build_instance (d : json) : result Instance :=
  match d with
  | JObj members =>
      match dict_get "model" members, dict_get "fields" members with
      | Some (JStr label), Some (JObj fields) =>
          match model_of_label label with
          | Some (ct, names) =>
              if forallb (fun field : string * json =>
                            bool_decide (field.1 ∈ names)) fields
              then
                match dict_get "pk" members with
                | None | Some JNull => Ok (mkInstance ct None fields)
                | Some (JNum n) => Ok (mkInstance ct (Some (pretty n)) fields)
                | Some (JStr s) =>
                    match key_of_text ct s with
                    | Ok key => Ok (mkInstance ct (Some key) fields)
                    | Raise _ => Raise DeserializationError
                    end
                | Some _ => Raise DeserializationError
                end
              else Raise DeserializationError
          | None => Raise DeserializationError
          end
      | _, _ => Raise DeserializationError
      end
  | _ => Raise DeserializationError
  end.

(** [next(deserialize('json', s)).object]: [None] has no [read] method;
    an empty stream ends the generator at once. *)
Definition decode (s : option text) : result Instance :=
  match s with
  | None => Raise AttributeError
  | Some (Garbled _) => Raise DeserializationError
  | Some (Dumps (JArr [])) | Some (Dumps (JObj [])) | Some (Dumps (JStr EmptyString)) =>
      Raise StopIteration
  | Some (Dumps (JArr (d :: _))) => build_instance d
  | Some (Dumps _) => Raise DeserializationError
  end.

(** [serialize('json', [obj])]: one record in a one-element list. *)
Definition encode (o : Obj) : text :=
  json_dumps (JArr [JObj [("model", JStr (label_of_model (obj_ct o)));
                          ("pk", match int_of_text (obj_pk o) with
                                 | Some n => JNum n
                                 | None => JStr (obj_pk o)
                                 end);
                          ("fields", JObj (obj_fields o))]]).

(** The next value of the model's integer key. *)
Definition next_key (rows : gmap (Z * string) dict) (ct : Z) : result string :=
  Ok (pretty (1 + foldr Z.max 0
                    (omap (fun row : Z * string * dict =>
                             if decide (row.1.1 = ct) then int_of_text row.1.2
                             else None)
                          (map_to_list rows)))).

(** The rows that refer to a row through the relations of its model. *)
Definition referring_keys (rows : gmap (Z * string) dict) (key : Z * string)
    : list (Z * string) :=
  relations key.1 ≫= fun rel =>
    (fun pk => (rel_related_model rel, pk))
      <$> referring_pks rel (mkObj key.1 key.2 []) (mkStore rows [] []).

(** Deleting a row deletes the rows that refer to it, and so on. *)
Fixpoint cascade (fuel : nat) (rows : gmap (Z * string) dict) (key : Z * string)
    : gmap (Z * string) dict :=
  let rest := delete key rows in
  match fuel with
  | O => rest
  | S fuel => foldl (cascade fuel) rest (referring_keys rows key)
  end.

Definition fw : Framework.
Proof.
  refine (mkFramework key_of_text decode encode next_key
            (fun rows key => cascade (size rows) rows key) _).
  assert (forall fuel rows key other,
            rows !! other = None -> cascade fuel rows key !! other = None) as Hshrink.
  { induction fuel as [|fuel IH]; intros rows key other Hnone; simpl.
    - rewrite lookup_delete_None. by right.
    - assert (delete key rows !! other = None) as Hrest
        by (rewrite lookup_delete_None; by right).
      revert Hrest. generalize (delete key rows).
      induction (referring_keys rows key) as [|child children IHc];
        intros acc Hacc; simpl; [done|].
      apply IHc. by apply IH. }
  intros rows key. destruct (size rows) as [|fuel]; simpl.
  - apply lookup_delete_eq.
  - assert (delete key rows !! key = None) as Hrest by apply lookup_delete_eq.
    revert Hrest. generalize (delete key rows).
    induction (referring_keys rows key) as [|child children IHc];
      intros acc Hacc; simpl; [done|].
    apply IHc. by apply Hshrink.
Defined.

(** The snapshot of author 1 under a given name. *)
Definition author_snapshot (name : string) : option text :=
  Some (Dumps (JArr [JObj [("model", JStr "library.author");
                           ("pk", JNum 1);
                           ("fields", JObj [("name", JStr name)])]])).

Definition author_added : Changes :=
  mkChanges 1 "Added" "1" 7 "default" (author_snapshot "Ann") None "Added".

Definition author_changed : Changes :=
  mkChanges 2 "Changed name" "1" 7 "default" (author_snapshot "Anna") None "Changed".

Definition author_deleted : Changes :=
  mkChanges 3 "Deleted" "1" 7 "default" (author_snapshot "Anna") None "Deleted".

(** Author 1 was created as Ann and renamed to Anna. *)
Definition renamed : Store :=
  mkStore {[ (7, "1") := [("name", JStr "Anna")] ]}
          [author_added; author_changed] [].

(** The same history after the author's row was removed behind the
    log's back. *)
Definition vanished : Store :=
  mkStore ∅ [author_added; author_changed] [].

(** Author 1 was created, renamed and deleted. *)
Definition removed : Store :=
  mkStore ∅ [author_added; author_changed; author_deleted] [].

(** Three books entered in one revision; book 11 is logged as changed
    although nothing earlier is known about it. *)
Definition import : Revision := mkRevision 1 (Some "import").

Definition book_entry (i : Z) (pk kind : string) : Changes :=
  mkChanges i kind pk 8 "default" None (Some 1) kind.

Definition imported : Store :=
  mkStore {[ (8, "10") := [("title", JStr "A")];
             (8, "11") := [("title", JStr "B")];
             (8, "12") := [("title", JStr "C")] ]}
          [book_entry 3 "10" "Added"; book_entry 4 "11" "Changed";
           book_entry 5 "12" "Added"; author_added]
          [import].

(** Categories form a tree through their [parent] field, so the model is
    related to itself; categories 2 and 3 are children of category 1. *)
Definition category : Model := mkModel 5 [mkRel false 5 "parent"].

Definition category_entry (i : Z) (pk : string) : Changes :=
  mkChanges i "Added" pk 5 "default" None None "Added".

Definition tree : Store :=
  mkStore {[ (5, "1") := [("parent", JNull)];
             (5, "2") := [("parent", JNum 1)];
             (5, "3") := [("parent", JNum 1)] ]}
          [category_entry 1 "1"; category_entry 2 "2"; category_entry 3 "3"]
          [].

(** An author has at most one profile (content type 6, none stored) and
    any number of books; books 10 and 11 are author 1's. *)
Definition author : Model :=
  mkModel 7 [mkRel true 6 "author"; mkRel false 8 "author"].

Definition shelf : Store :=
  mkStore {[ (7, "1") := [("name", JStr "Anna")];
             (8, "10") := [("title", JStr "A"); ("author", JNum 1)];
             (8, "11") := [("title", JStr "B"); ("author", JNum 1)];
             (8, "12") := [("title", JStr "C"); ("author", JNum 2)] ]}
          [author_added; author_changed;
           mkChanges 3 "Added" "10" 8 "default" None None "Added";
           mkChanges 4 "Added" "11" 8 "default" None None "Added";
           mkChanges 5 "Added" "12" 8 "default" None None "Added";
           mkChanges 6 "Added" "1" 8 "default" None None "Added"]
          [].

(** A car has a field that is itself called [model]. *)
Definition car_record : dict :=
  [("model", JStr "garage.car"); ("pk", JNum 1);
   ("fields", JObj [("model", JStr "T"); ("year", JNum 1908)])].

Definition car_added : Changes :=
  mkChanges 1 "Added" "1" 9 "default" (Some (Dumps (JArr [JObj car_record])))
            None "Added".

Definition garage : Store :=
  mkStore {[ (9, "1") := [("model", JStr "T"); ("year", JNum 1908)] ]}
          [car_added] [].

(** An entry whose blob names no model. *)
Definition untyped : Changes :=
  mkChanges 1 "Added" "1" 7 "default"
            (Some (Dumps (JArr [JObj [("pk", JNum 1);
                                      ("fields", JObj [("name", JStr "Ann")])]])))
            None "Added".

End Sample.

(** * Further sample data *)

Module Cases.

(** A revision that groups two renamings of author 1. *)
Definition renamings : Revision := mkRevision 2 (Some "renamings").

Definition renaming (i : Z) (name : string) : Changes :=
  mkChanges i "Changed name" "1" 7 "default" (Sample.author_snapshot name)
            (Some 2) "Changed".

Definition renamed_twice : Store :=
  mkStore {[ (7, "1") := [("name", JStr "Anne")] ]}
          [Sample.author_added; renaming 2 "Anna"; renaming 3 "Anne"]
          [renamings].

End Cases.

(** * Properties *)

(** ** Dictionaries *)

Section DictFacts.
Implicit Types (k : string) (v : json) (d : dict).

Lemma dict_get_set_eq k v d : dict_get k (dict_set k v d) = Some v.
Proof.
  induction d as [|[k' v'] d IH]; simpl.
  - by rewrite String.eqb_refl.
  - destruct (String.eqb k k') eqn:E; simpl; rewrite ?String.eqb_refl, ?E; done.
Qed.

Lemma dict_get_set_ne k k' v d :
  k <> k' -> dict_get k' (dict_set k v d) = dict_get k' d.
Proof.
  intros Hne. induction d as [|[k0 v0] d IH]; simpl.
  - apply String.eqb_neq in Hne. by rewrite String.eqb_sym, Hne.
  - destruct (String.eqb k k0) eqn:E; simpl.
    + apply String.eqb_eq in E; subst k0.
      assert (String.eqb k' k = false) as -> by (apply String.eqb_neq; congruence).
      done.
    + by rewrite IH.
Qed.

Lemma dict_set_same k v d : dict_get k d = Some v -> dict_set k v d = d.
Proof.
  induction d as [|[k' v'] d IH]; simpl; [done|].
  destruct (String.eqb k k') eqn:E.
  - apply String.eqb_eq in E; subst k'. by intros [= ->].
  - intros H. by rewrite IH.
Qed.

Lemma dict_get_pop_eq k d : dict_get k (dict_pop k d) = None.
Proof.
  induction d as [|[k' v'] d IH]; simpl; [done|].
  destruct (String.eqb k k') eqn:E; simpl; rewrite ?E; done.
Qed.

Lemma dict_get_pop_ne k k' d : k <> k' -> dict_get k' (dict_pop k d) = dict_get k' d.
Proof.
  intros Hne. induction d as [|[k0 v0] d IH]; simpl; [done|].
  destruct (String.eqb k k0) eqn:E; simpl.
  - apply String.eqb_eq in E; subst k0.
    assert (String.eqb k' k = false) as -> by (apply String.eqb_neq; congruence).
    done.
  - by rewrite IH.
Qed.

Lemma dict_pop_absent k d : dict_get k d = None -> dict_pop k d = d.
Proof.
  induction d as [|[k' v'] d IH]; simpl; [done|].
  destruct (String.eqb k k'); [done|]. intros H. by rewrite IH.
Qed.

Lemma dict_contains_false k d : dict_contains k d = false <-> dict_get k d = None.
Proof. unfold dict_contains. destruct (dict_get k d); split; congruence. Qed.

End DictFacts.

(** ** The ordering of queries *)

#[global] Instance newest_first_total : Total newest_first.
Proof. intros a b. unfold newest_first. lia. Qed.

#[global] Instance newest_first_trans : Transitive newest_first.
Proof. intros a b c. unfold newest_first. lia. Qed.

Lemma order_by_pk_desc_elem_of (rows : list Changes) c :
  c ∈ order_by_pk_desc rows <-> c ∈ rows.
Proof. unfold order_by_pk_desc. by rewrite merge_sort_Permutation. Qed.

Lemma order_by_pk_desc_sorted (rows : list Changes) :
  StronglySorted newest_first (order_by_pk_desc rows).
Proof. apply StronglySorted_merge_sort; apply _. Qed.

Lemma order_by_pk_desc_length (rows : list Changes) :
  length (order_by_pk_desc rows) = length rows.
Proof. unfold order_by_pk_desc. by rewrite merge_sort_Permutation. Qed.

(** The first row of a query is the one with the greatest identifier. *)
Lemma first_newest (rows : list Changes) p :
  first (order_by_pk_desc rows) = Some p ->
  p ∈ rows /\ forall q, q ∈ rows -> id q <= id p.
Proof.
  intros Hhd.
  pose proof (order_by_pk_desc_sorted rows) as Hs.
  destruct (order_by_pk_desc rows) as [|p' rest] eqn:E; [done|].
  injection Hhd as ->.
  split.
  - apply order_by_pk_desc_elem_of. rewrite E. left.
  - intros q Hq. apply order_by_pk_desc_elem_of in Hq. rewrite E in Hq.
    apply StronglySorted_inv in Hs as [_ Hall].
    apply elem_of_cons in Hq as [->|Hq]; [lia|].
    rewrite Forall_forall in Hall. by apply Hall.
Qed.

Lemma first_none (rows : list Changes) :
  first (order_by_pk_desc rows) = None <-> rows = [].
Proof.
  unfold first. rewrite head_None. split.
  - intros E. apply length_zero_iff_nil.
    rewrite <- order_by_pk_desc_length, E. done.
  - by intros ->.
Qed.

(** ** The predecessor of an entry *)

(** [prev_changes] never fails and never writes; what it returns is the
    entry of the same object with the greatest identifier below
    [self]'s, and nothing exactly when there is no entry below. *)
Lemma prev_changes_spec (self : Changes) (st : Store) :
  exists r, Changes_prev_changes self st = (Ok r, st) /\
    match r with
    | Some p =>
        p ∈ history st /\ same_record self p /\ id p < id self /\
        forall q, q ∈ history st -> same_record self q -> id q < id self ->
                  id q <= id p
    | None =>
        forall q, q ∈ history st -> same_record self q -> ~ id q < id self
    end.
Proof.
  unfold Changes_prev_changes, Changes_filter, bind, ret, same_record.
  set (P := fun c : Changes => _ /\ _ /\ _).
  destruct (first (order_by_pk_desc (filter P (history st)))) as [p|] eqn:E;
    eexists; (split; [reflexivity|]); simpl.
  - apply first_newest in E as [Hin Hmax].
    apply list_elem_of_filter in Hin as [(? & ? & ?) Hin].
    repeat split; try done.
    intros q Hq [? ?] ?. apply Hmax. apply list_elem_of_filter. by repeat split.
  - apply first_none in E. intros q Hq [? ?] Hlt.
    assert (q ∈ filter P (history st)) as Hin
      by (apply list_elem_of_filter; by repeat split).
    rewrite E in Hin. by apply elem_of_nil in Hin.
Qed.

Lemma prev_changes_none (self : Changes) (st : Store) :
  (forall q, q ∈ history st -> same_record self q -> ~ id q < id self) ->
  Changes_prev_changes self st = (Ok None, st).
Proof.
  intros Hnone. destruct (prev_changes_spec self st) as ([p|] & -> & H); [|done].
  destruct H as (Hin & Hsame & Hlt & _). by destruct (Hnone p).
Qed.

(** ** Reverting one entry *)

Lemma next_id_above (rows : list Changes) c : c ∈ rows -> id c < next_id rows.
Proof.
  unfold next_id. induction rows as [|r rows IH]; intros Hin.
  - by apply elem_of_nil in Hin.
  - rewrite fmap_cons, foldr_cons.
    apply elem_of_cons in Hin as [->|Hin]; [lia|].
    specialize (IH Hin). lia.
Qed.

(** Reading the generic reference in closed form: the key is converted,
    a conversion error other than [DoesNotExist] leaves as it is, and a
    key without a row reads as [None]. *)
Lemma generic_reference fw ct pk (st : Store) :
  GenericForeignKey_get fw ct pk st =
    match to_python fw ct pk with
    | Ok key => (Ok (mkObj ct key <$> live st !! (ct, key)), st)
    | Raise e => if decide (e = DoesNotExist) then (Ok None, st) else (Raise e, st)
    end.
Proof.
  unfold GenericForeignKey_get, try_except, objects_get, bind, lift, ret.
  destruct (to_python fw ct pk) as [key|e]; [|by case_decide].
  by destruct (live st !! (ct, key)).
Qed.

(** C4. Reverting a [Changed] entry that has no earlier entry for the same
    type and primary key raises [NoPrevChangesError] and leaves the
    database as it was. *)
Theorem revert_changed_without_predecessor fw (self : Changes) (st : Store) :
  action self = "Changed" ->
  (forall q, q ∈ history st -> same_record self q -> ~ id q < id self) ->
  Changes_revert fw self st = (Raise NoPrevChangesError, st).
Proof.
  intros Hact Hnone. unfold Changes_revert, atomic.
  rewrite Hact. repeat case_decide; try done.
  unfold try_except, bind. rewrite (prev_changes_none _ _ Hnone). done.
Qed.

Lemma revert_changed_without_predecessor_witness :
  Changes_revert Sample.fw Sample.author_changed
      (mkStore ∅ [Sample.author_changed] [])
  = (Raise NoPrevChangesError, mkStore ∅ [Sample.author_changed] []).
Proof.
  apply revert_changed_without_predecessor; [reflexivity|].
  intros q Hq _. apply list_elem_of_singleton in Hq. subst q. apply Z.lt_irrefl.
Defined.

(** Writing a row back with the values it already has changes nothing. *)
Lemma save_fetched_row (st : Store) ct pk fields :
  live st !! (ct, pk) = Some fields ->
  Obj_save (mkObj ct pk fields) st = (Ok tt, st).
Proof.
  intros Hrow. unfold Obj_save, modify, set_live. simpl.
  rewrite (insert_id _ _ _ Hrow). by destruct st.
Qed.

(** Whenever the [else] branch of [revert] finds a predecessor and the
    object is alive, the row that is saved is the one just fetched: the
    call succeeds and the database is what it was. *)
Lemma revert_changed_with_predecessor fw (self : Changes) (st : Store) key fields :
  action self <> "Added" -> action self <> "Deleted" ->
  (exists q, q ∈ history st /\ same_record self q /\ id q < id self) ->
  to_python fw (content_type_id self) (object_id self) = Ok key ->
  live st !! (content_type_id self, key) = Some fields ->
  Changes_revert fw self st = (Ok tt, st).
Proof.
  intros Ha Hd (q & Hq & Hsame & Hlt) Hkey Hrow.
  unfold Changes_revert, atomic. repeat case_decide; try done.
  unfold try_except, bind.
  destruct (prev_changes_spec self st) as ([p|] & -> & Hp).
  - destruct Hp as (_ & [Hct Hpk] & _). cbn [call_on].
    unfold Changes_object. rewrite generic_reference, Hct, Hpk, Hkey, Hrow.
    cbn -[Obj_save]. by rewrite (save_fetched_row _ _ _ _ Hrow).
  - by destruct (Hp q).
Qed.

(** C1. On the sample history (author 1 created as Ann, renamed to Anna)
    reverting the [Changed] entry finds the [Added] entry as predecessor,
    whose snapshot decodes to the name Ann; yet the call returns with the
    database unchanged, the live row still carrying Anna: what is saved
    is the live row read through the predecessor's generic reference, not
    the decoded snapshot. *)
Theorem revert_changed_saves_live_row :
  Changes_prev_changes Sample.author_changed Sample.renamed
    = (Ok (Some Sample.author_added), Sample.renamed)
  /\ Changes_get_object Sample.fw Sample.author_added Sample.renamed
    = (Ok (mkInstance 7 (Some "1") [("name", JStr "Ann")]), Sample.renamed)
  /\ Changes_revert Sample.fw Sample.author_changed Sample.renamed
    = (Ok tt, Sample.renamed)
  /\ live Sample.renamed !! (7, "1") = Some [("name", JStr "Anna")].
Proof.
  split; [reflexivity|]. split; [reflexivity|]. split; [|reflexivity].
  apply revert_changed_with_predecessor
    with (key := "1") (fields := [("name", JStr "Anna")]); try done.
  exists Sample.author_added. split; [left|]. split; [done|]. simpl. lia.
Qed.

(** C2, as the code has it.  Reverting an [Added] entry whose
    [object_id] is a key of the model deletes the live row with that key,
    through the framework's [delete], after which the row is gone; when
    there is no such row the generic reference reads as [None], the call
    of [delete] on it raises [AttributeError], and the database is
    unchanged.  An [object_id] that the key field cannot convert makes
    the lookup raise the conversion's exception, which reaches the caller
    with the database unchanged (were that exception the store's
    [DoesNotExist], the reference would read as [None] again). *)
Theorem revert_added fw (self : Changes) (st : Store) :
  action self = "Added" ->
  match to_python fw (content_type_id self) (object_id self) with
  | Ok key =>
      match live st !! (content_type_id self, key) with
      | Some _ =>
          Changes_revert fw self st
          = (Ok tt, set_live (fun rows =>
                      collect_delete fw rows (content_type_id self, key)) st)
          /\ live (snd (Changes_revert fw self st)) !! (content_type_id self, key)
             = None
      | None => Changes_revert fw self st = (Raise AttributeError, st)
      end
  | Raise e =>
      Changes_revert fw self st
      = (Raise (if decide (e = DoesNotExist) then AttributeError else e), st)
  end.
Proof.
  intros Hact. unfold Changes_revert, atomic. rewrite Hact.
  case_decide; [|done].
  unfold Changes_object, bind. rewrite generic_reference.
  destruct (to_python fw _ _) as [key|e].
  - destruct (live st !! (content_type_id self, key)) as [fields|]; [|done].
    cbn. split; [done|]. apply collect_delete_removes.
  - by case_decide.
Qed.

Lemma revert_added_witness :
  Changes_revert Sample.fw Sample.author_added Sample.renamed
  = (Ok tt, set_live (fun rows => collect_delete Sample.fw rows (7, "1"))
              Sample.renamed)
  /\ live (snd (Changes_revert Sample.fw Sample.author_added Sample.renamed))
       !! (7, "1") = None.
Proof.
  exact (revert_added Sample.fw Sample.author_added Sample.renamed eq_refl).
Defined.

(** C2, as the claim has it, fails: with the row gone the error is not
    the store's [DoesNotExist]. *)
Lemma revert_added_missing_row_not_DoesNotExist :
  action Sample.author_added = "Added"
  /\ live Sample.vanished !! (7, "1") = None
  /\ Changes_revert Sample.fw Sample.author_added Sample.vanished
     = (Raise AttributeError, Sample.vanished)
  /\ fst (Changes_revert Sample.fw Sample.author_added Sample.vanished)
     <> Raise DoesNotExist.
Proof. repeat split; done. Qed.



Example revert_deleted_sample :
  history (snd (Changes_revert Sample.fw Sample.author_deleted Sample.removed))
  = history Sample.removed
    ++ [mkChanges 4 "Recover object" "1" 7 "default"
          (Some (Dumps (JArr [JObj [("model", JStr "library.author");
                                    ("pk", JNum 1);
                                    ("fields", JObj [("name", JStr "Anna")])]])))
          None "Added"].
Proof. reflexivity. Qed.

(** ** Revisions *)

Lemma for_each_reverts fw (entries : list Changes) (st : Store) :
  reverts_in_order fw entries st (for_each entries (Changes_revert fw) st).
Proof.
  revert st. induction entries as [|c rest IH]; intros st; simpl.
  - constructor.
  - unfold bind. destruct (Changes_revert fw c st) as [[[]|e] st1] eqn:E.
    + eapply reverts_next; [exact E|apply IH].
    + eapply reverts_abort. exact E.
Qed.

(** A run has one outcome. *)
Lemma reverts_in_order_functional fw entries st out1 out2 :
  reverts_in_order fw entries st out1 ->
  reverts_in_order fw entries st out2 ->
  out1 = out2.
Proof.
  intros H1. revert out2.
  induction H1 as [st|c rest st st1 out Hc _ IH|c rest st e st1 Hc];
    intros out2 H2; inversion H2; subst; try congruence.
  apply IH. congruence.
Qed.

(** C6. [Revision.revert] runs the revert engine over the entries that
    belong to the revision, each of them once, by descending identifier;
    the first entry whose revert raises ends the run with that exception
    and the entries after it are not reverted. *)
Theorem Revision_revert_in_order fw (self : Revision) (st : Store) :
  exists entries,
    entries ≡ₚ filter (fun c => revision_id c = Some (rev_id self)) (history st)
    /\ StronglySorted newest_first entries
    /\ reverts_in_order fw entries st (Revision_revert fw self st).
Proof.
  exists (order_by_pk_desc
            (filter (fun c => revision_id c = Some (rev_id self)) (history st))).
  split; [apply merge_sort_Permutation|].
  split; [apply order_by_pk_desc_sorted|].
  unfold Revision_revert, Revision_changes_set, Changes_filter, bind.
  apply for_each_reverts.
Qed.

(** On the sample import the newest entry (book 12) is reverted, the next
    one (book 11) raises, and the oldest (book 10) is left alone. *)
Example Revision_revert_sample :
  let out := Revision_revert Sample.fw Sample.import Sample.imported in
  fst out = Raise NoPrevChangesError
  /\ live (snd out) !! (8, "12") = None
  /\ live (snd out) !! (8, "10") = Some [("title", JStr "A")]
  /\ history (snd out) = history Sample.imported.
Proof. repeat split; reflexivity. Qed.

(** C5, as the code has it.  Deleting a revision deletes the change
    entries that belong to it: the foreign key is declared without
    [on_delete] and so cascades.  The entries of other revisions and of no
    revision stay, and so do the live rows. *)
Theorem Revision_delete_cascades (self : Revision) (st : Store) :
  exists st',
    Revision_delete self st = (Ok tt, st')
    /\ (forall c, c ∈ history st' <->
                  c ∈ history st /\ revision_id c <> Some (rev_id self))
    /\ (forall r, r ∈ revisions st' <->
                  r ∈ revisions st /\ rev_id r <> rev_id self)
    /\ live st' = live st.
Proof.
  eexists. split; [reflexivity|].
  cbn [set_history set_revisions history revisions live
       Changes_revision_on_delete ForeignKey_on_delete default].
  split; [|split]; [| |done]; intros x; rewrite list_elem_of_filter; tauto.
Qed.

(** C5, as the claim has it, fails: an entry of the deleted revision is
    gone from the history. *)
Lemma Revision_delete_removes_entries :
  let entry := Sample.book_entry 5 "12" "Added" in
  entry ∈ history Sample.imported
  /\ revision_id entry = Some (rev_id Sample.import)
  /\ entry ∉ history (snd (Revision_delete Sample.import Sample.imported)).
Proof.
  repeat split; [set_solver|].
  change (history (snd (Revision_delete Sample.import Sample.imported)))
    with [Sample.author_added].
  intros Hin. apply list_elem_of_singleton in Hin. discriminate Hin.
Qed.

(** ** The history query *)

(** C10, as the code has it.  [get_changes_by_obj] fetches the root row
    before anything else: when the given primary key is one the model's
    key field accepts and the model has no live row with that key, the
    call raises [DoesNotExist], whatever relations are asked for and
    whatever the history holds for that key; a value that the key field
    cannot convert makes the call raise the conversion's exception
    instead.  Nothing is written either way. *)
Theorem get_changes_by_obj_needs_live_root fw (model : Model) (obj_id : string)
    (related : RelatedArg) (st : Store) :
  match to_python fw (model_ct model) obj_id with
  | Ok key =>
      live st !! (model_ct model, key) = None ->
      Changes_get_changes_by_obj fw model obj_id related st
      = (Raise DoesNotExist, st)
  | Raise e =>
      Changes_get_changes_by_obj fw model obj_id related st = (Raise e, st)
  end.
Proof.
  unfold Changes_get_changes_by_obj, objects_get, bind, lift.
  destruct (to_python fw (model_ct model) obj_id) as [key|e]; [|done].
  by intros ->.
Qed.

Lemma get_changes_by_obj_needs_live_root_witness :
  history_of 7 "1" Sample.vanished = [Sample.author_added; Sample.author_changed]
  /\ Changes_get_changes_by_obj Sample.fw Sample.author "1" (these_related [])
        Sample.vanished
      = (Raise DoesNotExist, Sample.vanished)
  /\ Changes_get_changes_by_obj Sample.fw Sample.author "1" all_related
        Sample.vanished
      = (Raise DoesNotExist, Sample.vanished)
  /\ Changes_get_changes_by_obj Sample.fw Sample.author "one" all_related
        Sample.vanished
      = (Raise ValueError, Sample.vanished).
Proof.
  split; [reflexivity|].
  split; [|split].
  - exact (get_changes_by_obj_needs_live_root Sample.fw Sample.author "1"
             (these_related []) Sample.vanished eq_refl).
  - exact (get_changes_by_obj_needs_live_root Sample.fw Sample.author "1"
             all_related Sample.vanished eq_refl).
  - exact (get_changes_by_obj_needs_live_root Sample.fw Sample.author "one"
             all_related Sample.vanished).
Defined.

(** C10, as the claim has it, fails: no live author has the key "one",
    and the error is not the store's [DoesNotExist] but the [ValueError]
    of the integer key's conversion. *)
Lemma get_changes_by_obj_unconvertible_key :
  (forall key fields, live Sample.shelf !! (7, key) = Some fields -> key <> "one")
  /\ Changes_get_changes_by_obj Sample.fw Sample.author "one" all_related
        Sample.shelf
      = (Raise ValueError, Sample.shelf)
  /\ fst (Changes_get_changes_by_obj Sample.fw Sample.author "one" all_related
            Sample.shelf)
      <> Raise DoesNotExist.
Proof.
  split; [|split; [reflexivity|discriminate]].
  intros key fields Hrow ->. discriminate Hrow.
Qed.

(** A one-to-one relation with no related row leaves the collected keys
    as they are. *)
Lemma collect_related_missing_one_to_one (obj : Obj) h (rel : Rel) (st : Store) :
  rel_one_to_one rel = true ->
  related_pks rel obj st = (Ok [], st) ->
  collect_related obj h rel st = (Ok h, st).
Proof.
  intros Hone Hnone. unfold collect_related, bind, try_except, related_pk, bind.
  by rewrite Hone, Hnone.
Qed.

(** The rows of a one-to-many relation replace whatever was collected
    under the related model's content type. *)
Lemma collect_related_one_to_many (obj : Obj) h (rel : Rel) (st : Store) :
  rel_one_to_one rel = false ->
  exists pks,
    related_pks rel obj st = (Ok pks, st)
    /\ collect_related obj h rel st = (Ok (<[rel_related_model rel := pks]> h), st).
Proof.
  intros Hmany. eexists. split; [reflexivity|].
  unfold collect_related, bind. by rewrite Hmany.
Qed.

(** An entry passes the filter exactly when its primary key is listed
    under its content type. *)
Lemma Q_matches_lookup (h : gmap Z (list string)) (c : Changes) :
  Q_matches h c <-> exists pks, h !! content_type_id c = Some pks /\ object_id c ∈ pks.
Proof.
  unfold Q_matches. rewrite Exists_exists. split.
  - intros ([k pks] & Hin & Hk & Hpk). simpl in *.
    apply elem_of_map_to_list in Hin. exists pks. by rewrite Hk.
  - intros (pks & Hlook & Hpk). exists (content_type_id c, pks).
    split; [by apply elem_of_map_to_list|done].
Qed.

(** With relations to other models the query is the union the
    specification describes: the missing profile adds nothing, both books
    of the author are found next to the author's own entries. *)
Example get_changes_by_obj_sample :
  fst (Changes_get_changes_by_obj Sample.fw Sample.author "1" all_related
         Sample.shelf)
  = Ok [mkChanges 4 "Added" "11" 8 "default" None None "Added";
        mkChanges 3 "Added" "10" 8 "default" None None "Added";
        Sample.author_changed; Sample.author_added].
Proof. vm_compute. reflexivity. Qed.

(** C7. For a model that is related to itself the keys of the related rows
    are stored under the root's own content type and replace the root's
    key: on the sample tree the closure of category 1 holds the entries of
    its children 2 and 3, and not the entry of category 1 itself. *)
Theorem get_changes_by_obj_self_relation :
  Changes_get_changes_by_obj Sample.fw Sample.category "1" all_related Sample.tree
    = (Ok [Sample.category_entry 3 "3"; Sample.category_entry 2 "2"], Sample.tree)
  /\ history_of 5 "1" Sample.tree = [Sample.category_entry 1 "1"].
Proof. split; vm_compute; reflexivity. Qed.

(** ** Patching a snapshot *)

Lemma dict_set_fields_frame (d : dict) (v : json) k :
  k <> "fields" -> dict_get k (dict_set "fields" v d) = dict_get k d.
Proof. intros Hk. apply dict_get_set_ne. congruence. Qed.

(** C8, as the code has it.  On an entry whose blob holds a record with a
    nested field mapping: [set_attr] with a name that is not a top-level
    key of the record gives that field the new value and leaves every
    other field and every top-level entry but the mapping itself as they
    were; with a name that is a top-level key it overwrites that
    top-level entry and leaves every other top-level entry as it was,
    whatever the field mapping holds under that name.  [del_attr] removes
    the name from the field mapping, leaves every other field and every
    top-level entry as they were, and when the name is not in the mapping
    the record is unchanged, and so is the entry when the blob held
    nothing but the record.  Both save the entry they return, whose blob
    is the record alone. *)
Theorem patch_frame (self : Changes) (attr : string) (value : json) (st : Store)
    (data fields : dict) (others : list json) :
  serialized_data self = Some (Dumps (JArr (JObj data :: others))) ->
  dict_get "fields" data = Some (JObj fields) ->
  (dict_get attr data = None ->
   exists self' data' fields',
     Changes_set_attr self attr value st = (Ok self', snd (Changes_save self' st))
     /\ self' = with_serialized_data self (Some (Dumps (JArr [JObj data'])))
     /\ dict_get "fields" data' = Some (JObj fields')
     /\ dict_get attr fields' = Some value
     /\ (forall k, k <> attr -> dict_get k fields' = dict_get k fields)
     /\ (forall k, k <> "fields" -> dict_get k data' = dict_get k data))
  /\ (is_Some (dict_get attr data) ->
      exists self' data',
        Changes_set_attr self attr value st = (Ok self', snd (Changes_save self' st))
        /\ self' = with_serialized_data self (Some (Dumps (JArr [JObj data'])))
        /\ dict_get attr data' = Some value
        /\ (forall k, k <> attr -> dict_get k data' = dict_get k data))
  /\ exists self' data' fields',
     Changes_del_attr self attr st = (Ok self', snd (Changes_save self' st))
     /\ self' = with_serialized_data self (Some (Dumps (JArr [JObj data'])))
     /\ dict_get "fields" data' = Some (JObj fields')
     /\ dict_get attr fields' = None
     /\ (forall k, k <> attr -> dict_get k fields' = dict_get k fields)
     /\ (forall k, k <> "fields" -> dict_get k data' = dict_get k data)
     /\ (dict_get attr fields = None -> data' = data)
     /\ (dict_get attr fields = None -> others = [] -> self' = self).
Proof.
  intros Hblob Hfields. split; [|split].
  - intros Htop.
    exists (with_serialized_data self
              (Some (Dumps (JArr [JObj (dict_set "fields"
                                          (JObj (dict_set attr value fields)) data)])))).
    do 2 eexists.
    split; [|split; [reflexivity|]].
    + unfold Changes_set_attr, bind, lift, ret. rewrite Hblob. cbn [json_loads subscript0 set_item].
      apply dict_contains_false in Htop. rewrite Htop, Hfields.
      unfold json_dumps. by destruct (Changes_save _ st) as [[[]|] ?] eqn:E.
    + split; [apply dict_get_set_eq|].
      split; [apply dict_get_set_eq|].
      split; [intros k Hk; by apply dict_get_set_ne|].
      apply dict_set_fields_frame.
  - intros [old Hold].
    exists (with_serialized_data self
              (Some (Dumps (JArr [JObj (dict_set attr value data)])))),
           (dict_set attr value data).
    split; [|split; [reflexivity|]].
    + unfold Changes_set_attr, bind, lift, ret. rewrite Hblob.
      cbn [json_loads subscript0 set_item]. unfold dict_contains. rewrite Hold.
      unfold json_dumps. by destruct (Changes_save _ st) as [[[]|] ?] eqn:E.
    + split; [apply dict_get_set_eq|]. intros k Hk. by apply dict_get_set_ne.
  - exists (with_serialized_data self
              (Some (Dumps (JArr [JObj (dict_set "fields"
                                          (JObj (dict_pop attr fields)) data)])))).
    do 2 eexists.
    split; [|split; [reflexivity|]].
    + unfold Changes_del_attr, bind, lift, ret. rewrite Hblob. cbn [json_loads subscript0 pop_field].
      rewrite Hfields.
      unfold json_dumps. by destruct (Changes_save _ st) as [[[]|] ?] eqn:E.
    + split; [apply dict_get_set_eq|].
      split; [apply dict_get_pop_eq|].
      split; [intros k Hk; by apply dict_get_pop_ne|].
      split; [apply dict_set_fields_frame|].
      assert (dict_get attr fields = None ->
              dict_set "fields" (JObj (dict_pop attr fields)) data = data) as Hsame.
      { intros Habsent. rewrite (dict_pop_absent _ _ Habsent).
        by apply dict_set_same. }
      split; [done|].
      intros Habsent ->. rewrite (Hsame Habsent).
      destruct self; simpl in *. unfold with_serialized_data; simpl. by rewrite Hblob.
Qed.

Lemma patch_frame_witness :
  (exists self',
     Changes_set_attr Sample.car_added "year" (JNum 1927) Sample.garage
       = (Ok self', snd (Changes_save self' Sample.garage)))
  /\ (exists self' data',
      Changes_set_attr Sample.car_added "model" (JStr "A") Sample.garage
        = (Ok self', snd (Changes_save self' Sample.garage))
      /\ dict_get "model" data' = Some (JStr "A")
      /\ dict_get "fields" data' = dict_get "fields" Sample.car_record)
  /\ (exists self',
     Changes_del_attr Sample.car_added "year" Sample.garage
       = (Ok self', snd (Changes_save self' Sample.garage))).
Proof.
  destruct (patch_frame Sample.car_added "year" (JNum 1927) Sample.garage
              Sample.car_record [("model", JStr "T"); ("year", JNum 1908)] []
              eq_refl eq_refl) as (Hset & _ & Hdel).
  destruct (patch_frame Sample.car_added "model" (JStr "A") Sample.garage
              Sample.car_record [("model", JStr "T"); ("year", JNum 1908)] []
              eq_refl eq_refl) as (_ & Htop & _).
  split; [|split].
  - destruct (Hset eq_refl) as (self' & _ & _ & E & _). exists self'. exact E.
  - destruct Htop as (self' & data' & E & _ & Hnew & Hrest); [by eexists|].
    exists self', data'. split; [exact E|]. split; [exact Hnew|].
    by apply Hrest.
  - destruct Hdel as (self' & _ & _ & E & _). exists self'. exact E.
Defined.

(** C8, as the claim has it, fails twice.  [model] is a field of the car,
    but the record has a top-level entry of that name too, and [set_attr]
    writes there; the field keeps its value.  And [del_attr] of a name
    that the mapping does not hold is not a no-op on a blob that holds two
    records: the second record is dropped. *)
Lemma set_attr_prefers_top_level :
  (dict_get "fields" Sample.car_record
     = Some (JObj [("model", JStr "T"); ("year", JNum 1908)])
   /\ fst (Changes_set_attr Sample.car_added "model" (JStr "A") Sample.garage)
     = Ok (with_serialized_data Sample.car_added
             (Some (Dumps (JArr [JObj
                [("model", JStr "A"); ("pk", JNum 1);
                 ("fields", JObj [("model", JStr "T"); ("year", JNum 1908)])]])))))
  /\ (let two := with_serialized_data Sample.car_added
                   (Some (Dumps (JArr [JObj Sample.car_record;
                                       JObj Sample.car_record]))) in
      fst (Changes_del_attr two "colour" Sample.garage)
      = Ok (with_serialized_data two (Some (Dumps (JArr [JObj Sample.car_record]))))
      /\ fst (Changes_del_attr two "colour" Sample.garage) <> Ok two).
Proof.
  split; [split; reflexivity|]. split; [reflexivity|]. discriminate.
Qed.

(** C9, as the code has it.  When the entry has no blob, or a blob that is
    not JSON, both patch operations raise the parser's own exception,
    [TypeError] for the missing text and [ValueError] for the text that
    does not parse, and write nothing. *)
Theorem patch_unreadable_snapshot (self : Changes) (attr : string) (value : json)
    (st : Store) :
  (forall j, serialized_data self <> Some (Dumps j)) ->
  let e := match serialized_data self with
           | None => TypeError
           | Some _ => ValueError
           end in
  Changes_set_attr self attr value st = (Raise e, st)
  /\ Changes_del_attr self attr st = (Raise e, st).
Proof.
  intros Hbad. unfold Changes_set_attr, Changes_del_attr, bind, lift.
  destruct (serialized_data self) as [[j|raw]|]; simpl; try done.
  by destruct (Hbad j).
Qed.

Lemma patch_unreadable_snapshot_witness :
  (Changes_set_attr (Sample.category_entry 1 "1") "name" JNull Sample.tree
     = (Raise TypeError, Sample.tree)
   /\ Changes_del_attr (Sample.category_entry 1 "1") "name" Sample.tree
     = (Raise TypeError, Sample.tree))
  /\ (Changes_set_attr (with_serialized_data Sample.car_added (Some (Garbled "[{")))
        "name" JNull Sample.garage
      = (Raise ValueError, Sample.garage)
   /\ Changes_del_attr (with_serialized_data Sample.car_added (Some (Garbled "[{")))
        "name" Sample.garage
      = (Raise ValueError, Sample.garage)).
Proof.
  split.
  - apply (patch_unreadable_snapshot (Sample.category_entry 1 "1")).
    intros j. discriminate.
  - apply (patch_unreadable_snapshot
             (with_serialized_data Sample.car_added (Some (Garbled "[{")))).
    intros j. discriminate.
Defined.

(** C9, as the claim has it, fails: a blob that lacks the model entry is
    not a snapshot, and the deserializer refuses it, but both patch
    operations go through. *)
Lemma patch_accepts_incomplete_snapshot :
  ~ valid_snapshot (serialized_data Sample.untyped)
  /\ fst (Changes_get_object Sample.fw Sample.untyped Sample.renamed)
     = Raise DeserializationError
  /\ fst (Changes_set_attr Sample.untyped "name" (JStr "Bea") Sample.renamed)
     = Ok (with_serialized_data Sample.untyped
             (Some (Dumps (JArr [JObj [("pk", JNum 1);
                                       ("fields", JObj [("name", JStr "Bea")])]]))))
  /\ fst (Changes_del_attr Sample.untyped "name" Sample.renamed)
     = Ok (with_serialized_data Sample.untyped
             (Some (Dumps (JArr [JObj [("pk", JNum 1); ("fields", JObj [])]])))).
Proof.
  split; [|repeat split; reflexivity].
  intros (data & fields & Hblob & [v Hmodel] & _).
  injection Hblob as <-. discriminate Hmodel.
Qed.

(** * Further properties of the revert engine *)

(** The [else] branch of [revert] (lines 114-120) in closed form: it
    succeeds when [prev_changes] finds an entry and the object is alive;
    it raises [NoPrevChangesError] when there is no such entry or no such
    object; an [object_id] that the key field cannot convert makes the
    lookup raise, and that exception passes the handler unless it is an
    [AttributeError] itself.  The database is the same afterwards in
    every case. *)
Lemma revert_else_branch fw (self : Changes) (st : Store) :
  action self <> "Added" -> action self <> "Deleted" ->
  Changes_revert fw self st =
    match fst (Changes_prev_changes self st) with
    | Ok (Some _) =>
        match to_python fw (content_type_id self) (object_id self) with
        | Ok key =>
            match live st !! (content_type_id self, key) with
            | Some _ => (Ok tt, st)
            | None => (Raise NoPrevChangesError, st)
            end
        | Raise e =>
            if decide (e = DoesNotExist \/ e = AttributeError)
            then (Raise NoPrevChangesError, st)
            else (Raise e, st)
        end
    | _ => (Raise NoPrevChangesError, st)
    end.
Proof.
  intros Ha Hd. unfold Changes_revert, atomic. repeat case_decide; try done.
  unfold try_except, bind.
  destruct (prev_changes_spec self st) as ([p|] & -> & Hp); cbn [fst]; [|done].
  destruct Hp as (_ & [Hct Hpk] & _). cbn [call_on].
  unfold Changes_object. rewrite generic_reference, Hct, Hpk.
  destruct (to_python fw (content_type_id self) (object_id self)) as [key|e].
  - destruct (live st !! (content_type_id self, key)) as [fields|] eqn:Hrow;
      [|done].
    cbn -[Obj_save]. by rewrite (save_fetched_row _ _ _ _ Hrow).
  - destruct (decide (e = DoesNotExist)) as [->|Hne]; [done|].
    destruct (decide (e = AttributeError)) as [->|Hna]; [done|].
    case_decide as Hor; [by destruct Hor|done].
Qed.

(** The "Added" branch of [revert] (lines 108-109) in closed form. *)
Lemma revert_added_unfold fw (self : Changes) (st : Store) :
  action self = "Added" ->
  Changes_revert fw self st =
    match to_python fw (content_type_id self) (object_id self) with
    | Ok key =>
        match live st !! (content_type_id self, key) with
        | Some _ =>
            (Ok tt, set_live (fun rows =>
                       collect_delete fw rows (content_type_id self, key)) st)
        | None => (Raise AttributeError, st)
        end
    | Raise e =>
        if decide (e = DoesNotExist) then (Raise AttributeError, st)
        else (Raise e, st)
    end.
Proof.
  intros Hact. unfold Changes_revert, atomic. rewrite Hact.
  case_decide; [|done].
  unfold Changes_object, bind. rewrite generic_reference.
  destruct (to_python fw _ _) as [key|e].
  - by destruct (live st !! (content_type_id self, key)).
  - by case_decide.
Qed.



(** X2. When the entry's [object_id] is a key of the model but the object
    is no longer alive, reverting a "Changed" entry raises
    [NoPrevChangesError] even though an earlier entry exists: the
    [AttributeError] of [None.save()] is caught by the handler that was
    written for the missing predecessor. *)
Theorem revert_changed_missing_row fw (self : Changes) (st : Store) key :
  action self <> "Added" -> action self <> "Deleted" ->
  to_python fw (content_type_id self) (object_id self) = Ok key ->
  live st !! (content_type_id self, key) = None ->
  Changes_revert fw self st = (Raise NoPrevChangesError, st).
Proof.
  intros Ha Hd Hkey Hgone.
  rewrite (revert_else_branch fw self st Ha Hd), Hkey, Hgone.
  by destruct (fst (Changes_prev_changes self st)) as [[?|]|].
Qed.

Lemma revert_changed_missing_row_witness :
  fst (Changes_prev_changes Sample.author_changed Sample.vanished)
    = Ok (Some Sample.author_added)
  /\ Changes_revert Sample.fw Sample.author_changed Sample.vanished
    = (Raise NoPrevChangesError, Sample.vanished).
Proof.
  split; [reflexivity|].
  apply (revert_changed_missing_row Sample.fw Sample.author_changed
           Sample.vanished "1"); [discriminate|discriminate|reflexivity|reflexivity].
Defined.

(** X3. A "Deleted" entry whose snapshot the deserializer refuses is not
    reverted: the deserializer's exception reaches the caller and nothing
    is written. *)
Theorem revert_deleted_undecodable fw (self : Changes) (st : Store) (e : Exc) :
  action self = "Deleted" ->
  deserialize_next fw (serialized_data self) = Raise e ->
  Changes_revert fw self st = (Raise e, st).
Proof.
  intros Hact Hdec. unfold Changes_revert, atomic. rewrite Hact.
  repeat case_decide; try done.
  unfold Changes_get_object, lift, bind. by rewrite Hdec.
Qed.

Lemma revert_deleted_undecodable_witness :
  let unknown_field :=
    mkChanges 9 "Deleted" "1" 7 "default"
      (Some (Dumps (JArr [JObj [("model", JStr "library.author"); ("pk", JNum 1);
                                ("fields", JObj [("colour", JStr "red")])]])))
      None "Deleted" in
  Changes_revert Sample.fw unknown_field Sample.renamed
  = (Raise DeserializationError, Sample.renamed).
Proof. apply revert_deleted_undecodable; reflexivity. Defined.



(** X5. Reverting an "Added" entry works once: the second call finds no
    object behind the generic reference and raises [AttributeError],
    leaving the database as the first call left it. *)
Theorem revert_added_twice fw (self : Changes) (st : Store) key :
  action self = "Added" ->
  to_python fw (content_type_id self) (object_id self) = Ok key ->
  is_Some (live st !! (content_type_id self, key)) ->
  exists st1,
    Changes_revert fw self st = (Ok tt, st1)
    /\ Changes_revert fw self st1 = (Raise AttributeError, st1).
Proof.
  intros Hact Hkey [fields Hrow].
  eexists. rewrite !(revert_added_unfold fw self) by done.
  rewrite Hkey, Hrow. split; [done|].
  cbn [set_live live]. by rewrite collect_delete_removes.
Qed.

Lemma revert_added_twice_witness :
  exists st1,
    Changes_revert Sample.fw Sample.author_added Sample.renamed = (Ok tt, st1)
    /\ Changes_revert Sample.fw Sample.author_added st1
       = (Raise AttributeError, st1).
Proof.
  apply (revert_added_twice Sample.fw Sample.author_added Sample.renamed "1");
    [reflexivity|reflexivity|]. by eexists.
Defined.

(** What one revert can do to the two tables of the module: the
    revisions are never touched, and the history either stays or gets the
    recovery entry at its end. *)
Lemma revert_tables fw (self : Changes) (st : Store) :
  revisions (snd (Changes_revert fw self st)) = revisions st
  /\ (history (snd (Changes_revert fw self st)) = history st
      \/ exists obj : Obj,
           action self = "Deleted"
           /\ history (snd (Changes_revert fw self st))
              = history st ++ [mkChanges (next_id (history st)) "Recover object"
                                 (obj_pk obj) (obj_ct obj) "default"
                                 (Some (serialize fw obj)) None "Added"]).
Proof.
  destruct (decide (action self = "Added")) as [Ha|Ha].
  { rewrite (revert_added_unfold fw self st Ha).
    destruct (to_python fw (content_type_id self) (object_id self)) as [key|e].
    - destruct (live st !! (content_type_id self, key)); cbn; auto.
    - case_decide; cbn; auto. }
  destruct (decide (action self = "Deleted")) as [Hd|Hd].
  - unfold Changes_revert, atomic. rewrite Hd. repeat case_decide; try done.
    unfold Changes_get_object, lift, bind, Instance_save.
    destruct (deserialize_next fw (serialized_data self)) as [obj|e]; [|cbn; auto].
    destruct (inst_pk obj) as [key|].
    + unfold bind, Obj_save, create_changes, modify, set_live, set_history, ret.
      cbn [snd live history revisions]. split; [done|]. right.
      by exists (mkObj (inst_ct obj) key (inst_fields obj)).
    + unfold bind, lift.
      destruct (assign_key fw (live st) (inst_ct obj)) as [key|e]; [|cbn; auto].
      unfold Obj_save, create_changes, modify, set_live, set_history, ret.
      cbn [snd live history revisions]. split; [done|]. right.
      by exists (mkObj (inst_ct obj) key (inst_fields obj)).
  - rewrite (revert_else_branch fw self st Ha Hd).
    destruct (fst (Changes_prev_changes self st)) as [[?|]|]; [|cbn; auto..].
    destruct (to_python fw (content_type_id self) (object_id self)) as [key|e].
    + destruct (live st !! (content_type_id self, key)); cbn; auto.
    + case_decide; cbn; auto.
Qed.

(** X7. Reverting never rewrites the past: whatever the entry and whatever
    the outcome, the entries that were in the history are still there, in
    place and unchanged, and the revisions are untouched; the only thing
    a revert adds is the one "Added" entry of a recovery, with an
    identifier above all earlier ones. *)
Theorem revert_keeps_past_entries fw (self : Changes) (st : Store) :
  revisions (snd (Changes_revert fw self st)) = revisions st
  /\ (history (snd (Changes_revert fw self st)) = history st
      \/ exists new,
           history (snd (Changes_revert fw self st)) = history st ++ [new]
           /\ action self = "Deleted"
           /\ action new = "Added"
           /\ forall c, c ∈ history st -> id c < id new).
Proof.
  destruct (revert_tables fw self st) as [Hrev [Hsame|(obj & Hd & Hnew)]].
  - auto.
  - split; [done|]. right. eexists. split; [exact Hnew|].
    repeat split; try done. intros c Hc. by apply next_id_above.
Qed.

Lemma for_each_revert_tables fw (entries : list Changes) (st : Store) :
  revisions (snd (for_each entries (Changes_revert fw) st)) = revisions st
  /\ history st `prefix_of` history (snd (for_each entries (Changes_revert fw) st)).
Proof.
  revert st. induction entries as [|c rest IH]; intros st; simpl.
  - done.
  - unfold bind.
    destruct (revert_tables fw c st) as [Hrev Hhist].
    destruct (Changes_revert fw c st) as [[[]|e] st1]; cbn [snd] in *.
    + destruct (IH st1) as [IHrev IHhist]. split; [congruence|].
      etrans; [|exact IHhist].
      destruct Hhist as [->|(obj & _ & ->)]; [done|]. by apply prefix_app_r.
    + split; [done|].
      destruct Hhist as [->|(obj & _ & ->)]; [done|]. by apply prefix_app_r.
Qed.

(** X8. Reverting a whole revision never rewrites the past either: the
    history it leaves starts with the history it found, and the
    revisions are the same, also when the run is cut short by an
    exception. *)
Theorem Revision_revert_keeps_past_entries fw (self : Revision) (st : Store) :
  revisions (snd (Revision_revert fw self st)) = revisions st
  /\ history st `prefix_of` history (snd (Revision_revert fw self st)).
Proof.
  unfold Revision_revert, Revision_changes_set, Changes_filter, bind.
  apply for_each_revert_tables.
Qed.

Lemma revert_other_store fw (c : Changes) (st : Store) :
  action c <> "Added" -> action c <> "Deleted" ->
  snd (Changes_revert fw c st) = st.
Proof.
  intros Ha Hd. rewrite (revert_else_branch fw c st Ha Hd).
  destruct (fst (Changes_prev_changes c st)) as [[?|]|]; try done.
  destruct (to_python fw (content_type_id c) (object_id c)) as [key|e].
  - by destruct (live st !! (content_type_id c, key)).
  - by case_decide.
Qed.

Lemma for_each_revert_other_kinds fw (entries : list Changes) (st : Store) :
  (forall c, c ∈ entries -> action c <> "Added" /\ action c <> "Deleted") ->
  snd (for_each entries (Changes_revert fw) st) = st.
Proof.
  induction entries as [|c rest IH]; intros Hkinds; simpl; [done|].
  unfold bind. destruct (Hkinds c) as [Ha Hd]; [left|].
  pose proof (revert_other_store fw c st Ha Hd) as Hst.
  destruct (Changes_revert fw c st) as [[[]|e] st1]; cbn [snd] in Hst; subst st1;
    [|done].
  apply IH. intros c' Hc'. apply Hkinds. by right.
Qed.

(** X9. A revision that holds nothing but "Changed" entries is reverted
    without any change to the database, whether the run completes or
    raises. *)
Theorem Revision_revert_of_changes_writes_nothing fw (self : Revision)
    (st : Store) :
  (forall c, c ∈ history st -> revision_id c = Some (rev_id self) ->
             action c <> "Added" /\ action c <> "Deleted") ->
  snd (Revision_revert fw self st) = st.
Proof.
  intros Hkinds.
  unfold Revision_revert, Revision_changes_set, Changes_filter, bind.
  apply for_each_revert_other_kinds. intros c Hc.
  apply order_by_pk_desc_elem_of, list_elem_of_filter in Hc as [Hrev Hc].
  by apply Hkinds.
Qed.

Lemma Revision_revert_of_changes_writes_nothing_witness :
  Revision_revert Sample.fw Cases.renamings Cases.renamed_twice
  = (Ok tt, Cases.renamed_twice).
Proof.
  assert (fst (Revision_revert Sample.fw Cases.renamings Cases.renamed_twice)
          = Ok tt) as Hok by reflexivity.
  assert (snd (Revision_revert Sample.fw Cases.renamings Cases.renamed_twice)
          = Cases.renamed_twice) as Hst.
  { apply Revision_revert_of_changes_writes_nothing.
    intros c Hc Hrev.
    repeat (apply elem_of_cons in Hc as [->|Hc]); try discriminate Hrev;
      [split; discriminate|split; discriminate|by apply elem_of_nil in Hc]. }
  destruct (Revision_revert Sample.fw Cases.renamings Cases.renamed_twice).
  simpl in *. congruence.
Defined.

(** X10. Reverting a revision that owns no entry returns at once and
    changes nothing. *)
Theorem Revision_revert_empty fw (self : Revision) (st : Store) :
  (forall c, c ∈ history st -> revision_id c <> Some (rev_id self)) ->
  Revision_revert fw self st = (Ok tt, st).
Proof.
  intros Hnone.
  unfold Revision_revert, Revision_changes_set, Changes_filter, bind.
  assert (filter (fun c => revision_id c = Some (rev_id self)) (history st) = [])
    as ->; [|done].
  induction (history st) as [|c rows IH]; [done|].
  rewrite filter_cons_False by (apply Hnone; left).
  apply IH. intros c' Hc'. apply Hnone. by right.
Qed.

Lemma Revision_revert_empty_witness :
  Revision_revert Sample.fw Cases.renamings Sample.renamed
  = (Ok tt, Sample.renamed).
Proof.
  apply Revision_revert_empty. intros c Hc.
  repeat (apply elem_of_cons in Hc as [->|Hc]); try discriminate.
  by apply elem_of_nil in Hc.
Defined.

(** X11. [prev_changes] only reads: it never raises and never writes.  It
    returns nothing exactly when the history has no entry of the same
    type and key with a smaller identifier; what it returns otherwise is
    such an entry, and no other such entry has a greater identifier.  The
    kind of the entries plays no part. *)
Theorem prev_changes_greatest_below (self : Changes) (st : Store) :
  snd (Changes_prev_changes self st) = st
  /\ exists r,
       fst (Changes_prev_changes self st) = Ok r
       /\ (r = None <->
           forall q, q ∈ history st -> same_record self q -> ~ id q < id self)
       /\ forall p, r = Some p ->
            p ∈ history st /\ same_record self p /\ id p < id self
            /\ forall q, q ∈ history st -> same_record self q ->
                         id q < id self -> id q <= id p.
Proof.
  destruct (prev_changes_spec self st) as (r & -> & Hr). cbn [fst snd].
  split; [done|]. exists r. split; [done|]. destruct r as [p|].
  - split.
    + split; [done|]. intros Hnone. destruct Hr as (Hin & Hs & Hlt & _).
      by destruct (Hnone p).
    + by intros ? [= <-].
  - split; [done|]. by intros ? [=].
Qed.

(** * Further properties of the patch operations *)

Section PatchFacts.
Implicit Types (k : string) (v : json) (d : dict).

Lemma dict_set_set k v1 v2 d : dict_set k v2 (dict_set k v1 d) = dict_set k v2 d.
Proof.
  induction d as [|[k' v'] d IH]; simpl.
  - by rewrite String.eqb_refl.
  - destruct (String.eqb k k') eqn:E; simpl; rewrite ?String.eqb_refl, ?E; [done|].
    by rewrite IH.
Qed.

Lemma dict_pop_pop k d : dict_pop k (dict_pop k d) = dict_pop k d.
Proof. apply dict_pop_absent, dict_get_pop_eq. Qed.

Lemma dict_pop_set_fresh k v d : dict_get k d = None -> dict_pop k (dict_set k v d) = d.
Proof.
  induction d as [|[k' v'] d IH]; simpl.
  - by rewrite String.eqb_refl.
  - destruct (String.eqb k k') eqn:E; [done|]. intros H. simpl. by rewrite E, IH.
Qed.

Lemma dict_contains_set k k' v d :
  dict_contains k' (dict_set k v d) = if decide (k = k') then true else dict_contains k' d.
Proof.
  unfold dict_contains. case_decide as Hk.
  - subst. by rewrite dict_get_set_eq.
  - by rewrite dict_get_set_ne.
Qed.

End PatchFacts.

(** Saving an entry leaves the live rows and the revisions alone. *)
Lemma Changes_save_tables (self : Changes) (st : Store) :
  exists rows,
    Changes_save self st = (Ok tt, mkStore (live st) rows (revisions st))
    /\ self ∈ rows
    /\ (forall c, c ∈ rows -> id c = id self -> c = self)
    /\ (forall c, id c <> id self -> c ∈ rows <-> c ∈ history st)
    /\ length rows = if decide (Exists (fun c => id c = id self) (history st))
                     then length (history st) else S (length (history st)).
Proof.
  unfold Changes_save, modify, set_history. cbn [live history revisions].
  eexists. split; [reflexivity|]. case_decide as Hex.
  - split.
    { apply Exists_exists in Hex as (c & Hc & Hid).
      apply list_elem_of_fmap. exists c. split; [|done]. by rewrite decide_True. }
    split.
    { intros c Hc Hid. apply list_elem_of_fmap in Hc as (c0 & -> & Hc0).
      case_decide; [done|]. done. }
    split; [|by rewrite length_fmap].
    intros c Hne. rewrite list_elem_of_fmap. split.
    + intros (c0 & -> & Hc0). case_decide; [done|]. done.
    + intros Hc. exists c. by rewrite decide_False.
  - split; [apply elem_of_app; right; left|].
    split.
    { intros c Hc Hid. apply elem_of_app in Hc as [Hc|Hc].
      - destruct Hex. apply Exists_exists. by exists c.
      - by apply list_elem_of_singleton in Hc. }
    split; [|rewrite length_app; simpl; lia].
    intros c Hne. rewrite elem_of_app, list_elem_of_singleton.
    split; [intros [?|?]; [done|congruence]|by left].
Qed.

(** Both patch operations in closed form: when the record can be changed,
    the entry gets a blob that holds the changed record alone and is
    saved; when not, the exception leaves before anything is written. *)
Lemma set_attr_unfold (self : Changes) (attr : string) (value : json) (st : Store) :
  Changes_set_attr self attr value st =
    match patched_record (set_item attr value) (serialized_data self) with
    | Ok record =>
        let self' := with_serialized_data self (Some (Dumps (JArr [record]))) in
        (Ok self', snd (Changes_save self' st))
    | Raise e => (Raise e, st)
    end.
Proof.
  unfold Changes_set_attr, patched_record, bind, lift.
  destruct (json_loads (serialized_data self)) as [parsed|]; [|done].
  destruct (subscript0 parsed) as [data|]; [|done].
  by destruct (set_item attr value data).
Qed.

Lemma del_attr_unfold (self : Changes) (attr : string) (st : Store) :
  Changes_del_attr self attr st =
    match patched_record (pop_field attr) (serialized_data self) with
    | Ok record =>
        let self' := with_serialized_data self (Some (Dumps (JArr [record]))) in
        (Ok self', snd (Changes_save self' st))
    | Raise e => (Raise e, st)
    end.
Proof.
  unfold Changes_del_attr, patched_record, bind, lift.
  destruct (json_loads (serialized_data self)) as [parsed|]; [|done].
  destruct (subscript0 parsed) as [data|]; [|done].
  by destruct (pop_field attr data).
Qed.

(** X12. A patch either fails before it writes, or succeeds with an entry
    that differs from the old one in its blob only, the new blob being a
    list of exactly one record (whatever else the old list held is
    dropped), and that entry is what is saved. *)
Theorem patch_outcome (self : Changes) (attr : string) (value : json) (st : Store) :
  match Changes_set_attr self attr value st with
  | (Ok self', st') =>
      (exists record,
         self' = with_serialized_data self (Some (Dumps (JArr [record]))))
      /\ Changes_save self' st = (Ok tt, st')
  | (Raise _, st') => st' = st
  end
  /\ match Changes_del_attr self attr st with
     | (Ok self', st') =>
         (exists record,
            self' = with_serialized_data self (Some (Dumps (JArr [record]))))
         /\ Changes_save self' st = (Ok tt, st')
     | (Raise _, st') => st' = st
     end.
Proof.
  rewrite set_attr_unfold, del_attr_unfold.
  split.
  - destruct (patched_record (set_item attr value) _) as [record|]; [|done].
    cbn zeta. split; [by eexists|done].
  - destruct (patched_record (pop_field attr) _) as [record|]; [|done].
    cbn zeta. split; [by eexists|done].
Qed.

(** X13. A successful patch rewrites one row: the live rows and the
    revisions are as before, every entry with another identifier is
    still in the history, and the patched entry, which keeps its
    identifier, is the only entry left under that identifier.  An entry
    that was not in the table is inserted by the patch. *)
Theorem patch_rewrites_one_row (self self' : Changes) (attr : string)
    (value : json) (st st' : Store) :
  Changes_set_attr self attr value st = (Ok self', st')
  \/ Changes_del_attr self attr st = (Ok self', st') ->
  live st' = live st
  /\ revisions st' = revisions st
  /\ id self' = id self
  /\ self' ∈ history st'
  /\ (forall c, c ∈ history st' -> id c = id self -> c = self')
  /\ (forall c, id c <> id self -> c ∈ history st' <-> c ∈ history st)
  /\ length (history st') =
       if decide (Exists (fun c => id c = id self) (history st))
       then length (history st) else S (length (history st)).
Proof.
  intros Hpatch.
  assert (id self' = id self /\ st' = snd (Changes_save self' st)) as [Hid ->].
  { destruct Hpatch as [H|H].
    - rewrite set_attr_unfold in H.
      destruct (patched_record _ _); [|done]. by injection H as <- <-.
    - rewrite del_attr_unfold in H.
      destruct (patched_record _ _); [|done]. by injection H as <- <-. }
  destruct (Changes_save_tables self' st) as (rows & -> & Hin & Honly & Hrest & Hlen).
  cbn [snd live history revisions]. rewrite Hid in *.
  repeat split; try done; by apply Hrest.
Qed.

Lemma patch_rewrites_one_row_witness :
  let patched := with_serialized_data Sample.car_added
                   (Some (Dumps (JArr [JObj [("model", JStr "garage.car");
                                             ("pk", JNum 2);
                                             ("fields", JObj [("model", JStr "T");
                                                              ("year", JNum 1908)])]]))) in
  let st' := snd (Changes_set_attr Sample.car_added "pk" (JNum 2) Sample.garage) in
  live st' = live Sample.garage
  /\ revisions st' = revisions Sample.garage
  /\ id patched = id Sample.car_added
  /\ patched ∈ history st'
  /\ (forall c, c ∈ history st' -> id c = id Sample.car_added -> c = patched)
  /\ (forall c, id c <> id Sample.car_added ->
                c ∈ history st' <-> c ∈ history Sample.garage)
  /\ length (history st') =
       if decide (Exists (fun c => id c = id Sample.car_added) (history Sample.garage))
       then length (history Sample.garage) else S (length (history Sample.garage)).
Proof.
  apply (patch_rewrites_one_row Sample.car_added _ "pk" (JNum 2) Sample.garage).
  left. reflexivity.
Defined.

(** Saving under one identifier twice is saving the second entry. *)
Lemma Changes_save_twice (first_ second : Changes) (st : Store) :
  id first_ = id second ->
  Changes_save second (snd (Changes_save first_ st)) = Changes_save second st.
Proof.
  intros Hid. unfold Changes_save, modify, set_history.
  cbn [snd live history revisions]. rewrite Hid.
  destruct (decide (Exists (fun c => id c = id second) (history st))) as [Hex|Hex].
  - rewrite decide_True.
    + f_equal. f_equal. rewrite <- list_fmap_compose. apply list_fmap_ext.
      intros i c _. simpl. destruct (decide (id c = id second)) as [Hc|Hc].
      * by rewrite decide_True.
      * by rewrite decide_False.
    + apply Exists_exists in Hex as (c & Hc & Hidc). apply Exists_exists.
      exists first_. split; [|done]. apply list_elem_of_fmap. exists c.
      split; [|done]. by rewrite decide_True.
  - rewrite decide_True by (apply Exists_app; right; by left).
    f_equal. f_equal. rewrite fmap_app. simpl. rewrite decide_True by done.
    f_equal. rewrite <- (list_fmap_id (history st)) at 2. apply list_fmap_ext.
    intros i c Hc. simpl. rewrite decide_False; [done|].
    intros Hidc. apply Hex, Exists_exists. exists c. split; [|done].
    by eapply list_elem_of_lookup_2.
Qed.

(** Saving a row that is in the table, alone under its identifier,
    changes nothing. *)
Lemma Changes_save_present (self : Changes) (st : Store) :
  self ∈ history st ->
  (forall c, c ∈ history st -> id c = id self -> c = self) ->
  Changes_save self st = (Ok tt, st).
Proof.
  intros Hin Honly. unfold Changes_save, modify, set_history.
  rewrite decide_True by (apply Exists_exists; by exists self).
  assert ((fun c => if decide (id c = id self) then self else c) <$> history st
          = history st) as ->; [|by destruct st].
  rewrite <- (list_fmap_id (history st)) at 2. apply list_fmap_ext.
  intros i c Hc. simpl. case_decide as Hid; [|done].
  symmetry. apply Honly; [|done]. by eapply list_elem_of_lookup_2.
Qed.

Lemma set_item_again (attr : string) (v1 v2 : json) (data record : json) :
  set_item attr v1 data = Ok record ->
  set_item attr v2 record = set_item attr v2 data.
Proof.
  destruct data as [| | | | |d]; try done. simpl.
  destruct (dict_contains attr d) eqn:Htop.
  - intros [= <-]. simpl.
    rewrite dict_contains_set, decide_True by done. by rewrite dict_set_set.
  - destruct (dict_get "fields" d) as [[| | | | |fields]|] eqn:Hf; try done.
    intros [= <-]. simpl.
    assert (attr <> "fields") as Hne.
    { intros ->. unfold dict_contains in Htop. by rewrite Hf in Htop. }
    rewrite dict_contains_set, decide_False, Htop by done.
    by rewrite dict_get_set_eq, !dict_set_set.
Qed.

Lemma pop_field_again (attr : string) (data record : json) :
  pop_field attr data = Ok record -> pop_field attr record = Ok record.
Proof.
  destruct data as [| | | | |d]; try done. simpl.
  destruct (dict_get "fields" d) as [[| | | | |fields]|] eqn:Hf; try done.
  intros [= <-]. simpl. by rewrite dict_get_set_eq, dict_pop_pop, dict_set_set.
Qed.

(** X14. Setting an attribute twice is setting it to the second value:
    after a first successful [set_attr], a second one on the entry it
    returned gives the entry and the database that the second call alone
    would have given. *)
Theorem set_attr_last_write_wins (self self1 : Changes) (attr : string)
    (v1 v2 : json) (st st1 : Store) :
  Changes_set_attr self attr v1 st = (Ok self1, st1) ->
  Changes_set_attr self1 attr v2 st1 = Changes_set_attr self attr v2 st.
Proof.
  rewrite !set_attr_unfold. unfold patched_record.
  destruct (json_loads (serialized_data self)) as [parsed|]; [|done].
  destruct (subscript0 parsed) as [data|]; [|done].
  destruct (set_item attr v1 data) as [record|] eqn:Hset; [|done].
  cbn zeta. intros [= <- <-].
  change (serialized_data (with_serialized_data self ?s)) with s.
  cbn [json_loads subscript0]. rewrite (set_item_again _ _ _ _ _ Hset).
  assert (exists record2, set_item attr v2 data = Ok record2) as [record2 ->].
  { destruct data as [| | | | |d]; try done. simpl in *.
    destruct (dict_contains attr d); [by eexists|].
    destruct (dict_get "fields" d) as [[| | | | |fields]|]; try done. by eexists. }
  cbn zeta. f_equal.
  exact (f_equal snd
           (Changes_save_twice
              (with_serialized_data self (Some (Dumps (JArr [record]))))
              (with_serialized_data self (Some (Dumps (JArr [record2]))))
              st eq_refl)).
Qed.

Lemma set_attr_last_write_wins_witness :
  exists self1 st1,
    Changes_set_attr Sample.car_added "year" (JNum 1910) Sample.garage
      = (Ok self1, st1)
    /\ Changes_set_attr self1 "year" (JNum 1927) st1
       = Changes_set_attr Sample.car_added "year" (JNum 1927) Sample.garage.
Proof.
  eexists _, _. split; [rewrite set_attr_unfold; lazy; reflexivity|].
  apply (set_attr_last_write_wins Sample.car_added _ "year" (JNum 1910) (JNum 1927)
           Sample.garage).
  reflexivity.
Defined.

(** X15. Deleting an attribute twice is deleting it once: after a
    successful [del_attr], a second one on the entry it returned returns
    the same entry and leaves the database as it is. *)
Theorem del_attr_idempotent (self self1 : Changes) (attr : string)
    (st st1 : Store) :
  Changes_del_attr self attr st = (Ok self1, st1) ->
  Changes_del_attr self1 attr st1 = (Ok self1, st1).
Proof.
  rewrite !del_attr_unfold. unfold patched_record.
  destruct (json_loads (serialized_data self)) as [parsed|]; [|done].
  destruct (subscript0 parsed) as [data|]; [|done].
  destruct (pop_field attr data) as [record|] eqn:Hpop; [|done].
  cbn zeta. intros [= <- <-].
  change (serialized_data (with_serialized_data self ?s)) with s.
  cbn [json_loads subscript0]. rewrite (pop_field_again _ _ _ Hpop).
  cbn zeta. f_equal.
  exact (f_equal snd
           (Changes_save_twice
              (with_serialized_data self (Some (Dumps (JArr [record]))))
              (with_serialized_data self (Some (Dumps (JArr [record]))))
              st eq_refl)).
Qed.

Lemma del_attr_idempotent_witness :
  exists self1 st1,
    Changes_del_attr Sample.car_added "year" Sample.garage = (Ok self1, st1)
    /\ Changes_del_attr self1 "year" st1 = (Ok self1, st1).
Proof.
  eexists _, _. split; [rewrite del_attr_unfold; lazy; reflexivity|].
  apply (del_attr_idempotent Sample.car_added _ "year" Sample.garage).
  reflexivity.
Defined.

(** X16. [set_attr] with the name of a top-level key of the record
    ("pk", "model", "fields") overwrites that top-level entry and nothing
    else: every other top-level entry is as before, so the field mapping
    is untouched unless the name is "fields" itself, in which case the
    whole mapping is replaced by the value. *)
Theorem set_attr_top_level (self : Changes) (attr : string) (value : json)
    (st : Store) (data : dict) (others : list json) :
  serialized_data self = Some (Dumps (JArr (JObj data :: others))) ->
  is_Some (dict_get attr data) ->
  exists self' data',
    Changes_set_attr self attr value st = (Ok self', snd (Changes_save self' st))
    /\ self' = with_serialized_data self (Some (Dumps (JArr [JObj data'])))
    /\ dict_get attr data' = Some value
    /\ forall k, k <> attr -> dict_get k data' = dict_get k data.
Proof.
  intros Hblob [old Hold].
  exists (with_serialized_data self
            (Some (Dumps (JArr [JObj (dict_set attr value data)])))),
         (dict_set attr value data).
  split.
  - rewrite set_attr_unfold. unfold patched_record. rewrite Hblob.
    cbn [json_loads subscript0 set_item]. unfold dict_contains. by rewrite Hold.
  - split; [done|]. split; [apply dict_get_set_eq|].
    intros k Hk. by apply dict_get_set_ne.
Qed.

Lemma set_attr_top_level_witness :
  exists self' data',
    Changes_set_attr Sample.car_added "fields" (JStr "none") Sample.garage
      = (Ok self', snd (Changes_save self' Sample.garage))
    /\ self' = with_serialized_data Sample.car_added
                 (Some (Dumps (JArr [JObj data'])))
    /\ dict_get "fields" data' = Some (JStr "none")
    /\ forall k, k <> "fields" -> dict_get k data' = dict_get k Sample.car_record.
Proof.
  apply (set_attr_top_level Sample.car_added "fields" (JStr "none") Sample.garage
           Sample.car_record []); [reflexivity|]. by eexists.
Defined.

(** X17. Adding a new field with [set_attr] and removing it with
    [del_attr] is a round trip: for an entry of the table whose blob is
    one record with a field mapping, and a name that is neither a
    top-level key nor a field, the second call returns the original entry
    and the database is what it was before the first. *)
Theorem set_attr_del_attr_round_trip (self : Changes) (attr : string)
    (value : json) (st : Store) (data fields : dict) :
  serialized_data self = Some (Dumps (JArr [JObj data])) ->
  dict_get "fields" data = Some (JObj fields) ->
  dict_get attr data = None ->
  dict_get attr fields = None ->
  self ∈ history st ->
  (forall c, c ∈ history st -> id c = id self -> c = self) ->
  exists self1 st1,
    Changes_set_attr self attr value st = (Ok self1, st1)
    /\ self1 <> self
    /\ Changes_del_attr self1 attr st1 = (Ok self, st).
Proof.
  intros Hblob Hfields Htop Hfresh Hin Honly.
  eexists _, _. split.
  { rewrite set_attr_unfold. unfold patched_record. rewrite Hblob.
    cbn [json_loads subscript0 set_item].
    apply dict_contains_false in Htop. rewrite Htop, Hfields. reflexivity. }
  assert (with_serialized_data self (Some (Dumps (JArr [JObj data]))) = self)
    as Hself by (destruct self; simpl in *; by rewrite Hblob).
  split.
  { intros Heq. apply (f_equal serialized_data) in Heq.
    rewrite Hblob in Heq. cbn in Heq. injection Heq as Heq.
    apply (f_equal (dict_get "fields")) in Heq.
    rewrite dict_get_set_eq, Hfields in Heq. injection Heq as Heq.
    apply (f_equal (dict_get attr)) in Heq.
    by rewrite dict_get_set_eq, Hfresh in Heq. }
  rewrite del_attr_unfold. unfold patched_record.
  change (serialized_data (with_serialized_data self ?s)) with s.
  cbn [json_loads subscript0 pop_field].
  rewrite dict_get_set_eq, (dict_pop_set_fresh _ _ _ Hfresh), dict_set_set.
  rewrite (dict_set_same _ _ _ Hfields). cbn zeta.
  f_equal; [by f_equal|].
  etrans.
  { exact (f_equal snd
             (Changes_save_twice
                (with_serialized_data self
                   (Some (Dumps (JArr [JObj (dict_set "fields"
                            (JObj (dict_set attr value fields)) data)]))))
                (with_serialized_data self (Some (Dumps (JArr [JObj data]))))
                st eq_refl)). }
  rewrite Hself. by rewrite (Changes_save_present self st Hin Honly).
Qed.

Lemma set_attr_del_attr_round_trip_witness :
  exists self1 st1,
    Changes_set_attr Sample.car_added "colour" (JStr "black") Sample.garage
      = (Ok self1, st1)
    /\ self1 <> Sample.car_added
    /\ Changes_del_attr self1 "colour" st1 = (Ok Sample.car_added, Sample.garage).
Proof.
  apply (set_attr_del_attr_round_trip Sample.car_added "colour" (JStr "black")
           Sample.garage Sample.car_record
           [("model", JStr "T"); ("year", JNum 1908)]); try reflexivity.
  - left.
  - intros c Hc _. by apply list_elem_of_singleton in Hc.
Defined.

(** * Further properties of the history query *)

Lemma referring_pks_elem_of (rel : Rel) (obj : Obj) (st : Store) pk :
  pk ∈ referring_pks rel obj st <-> row_refers st rel pk (obj_pk obj).
Proof.
  unfold referring_pks, row_refers. rewrite list_elem_of_fmap. split.
  - intros ([[ct pk'] row] & -> & Hin). apply list_elem_of_filter in Hin as [[Hct Href] Hin].
    apply elem_of_map_to_list in Hin. simpl in *. subst ct. by exists row.
  - intros (row & Hrow & Href). exists (rel_related_model rel, pk, row).
    split; [done|]. apply list_elem_of_filter. split; [done|].
    by apply elem_of_map_to_list.
Qed.

Lemma referring_pks_NoDup (rel : Rel) (obj : Obj) (st : Store) :
  NoDup (referring_pks rel obj st).
Proof.
  unfold referring_pks. apply NoDup_fmap_2_strong.
  - intros [[ct1 pk1] row1] [[ct2 pk2] row2] H1 H2 Hpk. simpl in Hpk. subst pk2.
    apply list_elem_of_filter in H1 as [[Hct1 _] H1].
    apply list_elem_of_filter in H2 as [[Hct2 _] H2].
    simpl in *. subst ct1 ct2.
    apply elem_of_map_to_list in H1. apply elem_of_map_to_list in H2. congruence.
  - apply NoDup_filter, NoDup_map_to_list.
Qed.

(** One round of the loop of [get_changes_by_obj] in closed form. *)
Lemma collect_related_unfold (obj : Obj) h (rel : Rel) (st : Store) :
  collect_related obj h rel st =
    (if rel_one_to_one rel then
       match referring_pks rel obj st with
       | [] => Ok h
       | [pk] => Ok (<[rel_related_model rel := [pk]]> h)
       | _ => Raise MultipleObjectsReturned
       end
     else Ok (<[rel_related_model rel := referring_pks rel obj st]> h), st).
Proof.
  unfold collect_related, bind, try_except, related_pk, bind, related_pks.
  unfold referring_pks.
  destruct (rel_one_to_one rel); [|done].
  by destruct (_ <$> filter _ _) as [|pk [|pk' pks]].
Qed.

Lemma for_fold_collect_store (obj : Obj) (rels : list Rel) h (st : Store) :
  snd (for_fold rels (collect_related obj) h st) = st.
Proof.
  revert h. induction rels as [|rel rels IH]; intros h; simpl; [done|].
  unfold bind. rewrite collect_related_unfold.
  destruct (rel_one_to_one rel);
    [destruct (referring_pks rel obj st) as [|pk [|pk' pks]]|]; try done; apply IH.
Qed.

(** X18. The history query only reads: whatever it returns or raises,
    the database is unchanged; and what it returns is a list of entries
    of the history, by descending identifier. *)
Theorem get_changes_by_obj_reads_only fw (model : Model) (obj_id : string)
    (related : RelatedArg) (st : Store) :
  snd (Changes_get_changes_by_obj fw model obj_id related st) = st
  /\ forall rows,
       fst (Changes_get_changes_by_obj fw model obj_id related st) = Ok rows ->
       StronglySorted newest_first rows /\ forall c, c ∈ rows -> c ∈ history st.
Proof.
  unfold Changes_get_changes_by_obj, objects_get, bind, lift.
  destruct (to_python fw (model_ct model) obj_id) as [key|]; [|done].
  destruct (live st !! (model_ct model, key)) as [fields|]; [|done].
  set (rels := match related with all_related => _ | these_related rels => rels end).
  set (obj := mkObj _ _ _). set (h0 := {[ _ := _ ]}).
  pose proof (for_fold_collect_store obj rels h0 st) as Hst.
  destruct (for_fold rels (collect_related obj) h0 st) as [[h|e] st1];
    cbn [snd] in Hst; subst st1; [|done].
  unfold Changes_filter. cbn [fst snd]. split; [done|].
  intros rows [= <-]. split; [apply order_by_pk_desc_sorted|].
  intros c Hc. apply (proj1 (order_by_pk_desc_elem_of _ _)) in Hc.
  by apply list_elem_of_filter in Hc as [_ Hc].
Qed.

(** X19. Asked for no relations about an object that is alive, the query
    is the exact-match history of the object: the entries with the
    model's content type whose [object_id] is the primary key as it was
    given, by descending identifier. *)
Theorem get_changes_by_obj_exact fw (model : Model) (obj_id : string)
    (st : Store) key :
  to_python fw (model_ct model) obj_id = Ok key ->
  is_Some (live st !! (model_ct model, key)) ->
  Changes_get_changes_by_obj fw model obj_id (these_related []) st
  = (Ok (order_by_pk_desc (history_of (model_ct model) obj_id st)), st).
Proof.
  intros Hkey [fields Hrow].
  unfold Changes_get_changes_by_obj, objects_get, bind, lift. rewrite Hkey, Hrow.
  cbn [for_fold ret]. unfold Changes_filter, history_of. do 3 f_equal.
  apply list_filter_iff. intros c. rewrite Q_matches_lookup. split.
  - intros (pks & Hlook & Hin).
    apply lookup_singleton_Some in Hlook as [Hct <-].
    apply list_elem_of_singleton in Hin. done.
  - intros [Hct Hpk]. exists [obj_id]. rewrite Hct, Hpk.
    split; [apply lookup_singleton_eq|left].
Qed.

Lemma get_changes_by_obj_exact_witness :
  Changes_get_changes_by_obj Sample.fw Sample.author "1" (these_related [])
    Sample.shelf
  = (Ok [Sample.author_changed; Sample.author_added], Sample.shelf).
Proof.
  apply (get_changes_by_obj_exact Sample.fw Sample.author "1" Sample.shelf "1");
    [reflexivity|]. by eexists.
Defined.

(** What the loop of [get_changes_by_obj] has collected when the
    relations lead to pairwise different models, none of them collected
    before, and no one-to-one relation has more than one row: the keys it
    started with, and under each relation's content type the keys of the
    rows that refer to the object. *)
Lemma for_fold_collect_keys (obj : Obj) (rels : list Rel) h (st : Store) :
  NoDup (rel_related_model <$> rels) ->
  (forall rel, rel ∈ rels -> h !! rel_related_model rel = None) ->
  (forall rel, rel ∈ rels -> rel_one_to_one rel = true ->
               (length (referring_pks rel obj st) <= 1)%nat) ->
  exists h',
    for_fold rels (collect_related obj) h st = (Ok h', st)
    /\ forall k x,
         (exists pks, h' !! k = Some pks /\ x ∈ pks) <->
         (exists pks, h !! k = Some pks /\ x ∈ pks)
         \/ exists rel, rel ∈ rels /\ rel_related_model rel = k
                        /\ x ∈ referring_pks rel obj st.
Proof.
  revert h. induction rels as [|rel rels IH]; intros h Hnodup Hfresh Hone.
  - exists h. split; [done|]. intros k x. split; [by left|].
    intros [?|(rel & Hin & _)]; [done|]. by apply elem_of_nil in Hin.
  - rewrite fmap_cons in Hnodup. apply NoDup_cons in Hnodup as [Hnotin Hnodup].
    assert (exists h1,
      collect_related obj h rel st = (Ok h1, st)
      /\ (forall k, k <> rel_related_model rel -> h1 !! k = h !! k)
      /\ forall x, (exists pks, h1 !! rel_related_model rel = Some pks /\ x ∈ pks)
                   <-> x ∈ referring_pks rel obj st) as (h1 & Hstep & Hother & Hhere).
    { rewrite collect_related_unfold.
      assert (h !! rel_related_model rel = None) as Hnone by (apply Hfresh; left).
      destruct (rel_one_to_one rel) eqn:Hkind.
      - specialize (Hone rel (ltac:(left)) Hkind).
        destruct (referring_pks rel obj st) as [|pk [|pk' pks]]; simpl in Hone; [| |lia].
        + exists h. split; [done|]. split; [done|]. intros x. rewrite Hnone. split.
          * by intros (? & [=] & _).
          * intros Hx. by apply elem_of_nil in Hx.
        + eexists. split; [done|]. split.
          * intros k Hk. by rewrite lookup_insert_ne.
          * intros x. rewrite lookup_insert_eq. split; [by intros (? & [= <-] & ?)|].
            intros Hx. by eexists.
      - eexists. split; [done|]. split.
        + intros k Hk. by rewrite lookup_insert_ne.
        + intros x. rewrite lookup_insert_eq. split; [by intros (? & [= <-] & ?)|].
          intros Hx. by eexists. }
    destruct (IH h1) as (h' & Hfold & Hkeys); [done| | |].
    { intros r Hr. rewrite Hother.
      - apply Hfresh. by right.
      - intros Heq. apply Hnotin. rewrite <- Heq. apply list_elem_of_fmap. by exists r. }
    { intros r Hr. apply Hone. by right. }
    exists h'. split.
    { simpl. unfold bind. by rewrite Hstep. }
    intros k x. rewrite Hkeys. split.
    + intros [(pks & Hk & Hx)|(r & Hr & Hk & Hx)].
      * destruct (decide (k = rel_related_model rel)) as [->|Hne].
        -- right. exists rel. split; [left|]. split; [done|].
           apply Hhere. by exists pks.
        -- left. exists pks. by rewrite <- Hother.
      * right. exists r. split; [by right|done].
    + intros [(pks & Hk & Hx)|(r & Hr & Hk & Hx)].
      * left. exists pks. split; [|done]. rewrite Hother; [done|].
        intros ->. rewrite Hfresh in Hk; [done|left].
      * apply elem_of_cons in Hr as [->|Hr].
        -- left. subst k. by apply Hhere.
        -- right. by exists r.
Qed.

(** X20. The closure the query computes for an object that is alive,
    when the relations lead to pairwise different models, other than the
    root's own, and every one-to-one relation has at most one row behind
    it: the query succeeds, and an entry is returned exactly when it is
    in the history and records either the root object (under the primary
    key as it was given) or a live row that refers to the root's key
    through one of the relations.  A one-to-one relation with no row adds
    nothing; the result is ordered by descending identifier. *)
Theorem get_changes_by_obj_union fw (model : Model) (obj_id : string)
    (related : RelatedArg) (st : Store) key :
  let rels := match related with
              | all_related => related_objects model
              | these_related rels => rels
              end in
  to_python fw (model_ct model) obj_id = Ok key ->
  is_Some (live st !! (model_ct model, key)) ->
  NoDup (rel_related_model <$> rels) ->
  model_ct model ∉ rel_related_model <$> rels ->
  (forall rel pk1 pk2, rel ∈ rels -> rel_one_to_one rel = true ->
     row_refers st rel pk1 key -> row_refers st rel pk2 key -> pk1 = pk2) ->
  exists rows,
    Changes_get_changes_by_obj fw model obj_id related st = (Ok rows, st)
    /\ StronglySorted newest_first rows
    /\ forall c, c ∈ rows <->
         c ∈ history st
         /\ ((content_type_id c = model_ct model /\ object_id c = obj_id)
             \/ exists rel, rel ∈ rels
                  /\ content_type_id c = rel_related_model rel
                  /\ row_refers st rel (object_id c) key).
Proof.
  intros rels Hkey [fields Hrow] Hnodup Hroot Hone.
  unfold Changes_get_changes_by_obj, objects_get, bind, lift. rewrite Hkey, Hrow.
  fold rels. set (obj := mkObj (model_ct model) key fields).
  destruct (for_fold_collect_keys obj rels {[ model_ct model := [obj_id] ]} st)
    as (h & -> & Hkeys); [done| | |].
  { intros rel Hrel. apply lookup_singleton_ne. intros Heq. apply Hroot.
    rewrite Heq. apply list_elem_of_fmap. by exists rel. }
  { intros rel Hrel Hkind.
    pose proof (referring_pks_NoDup rel obj st) as Hnd.
    destruct (referring_pks rel obj st) as [|pk1 [|pk2 pks]] eqn:E; simpl; [lia|lia|].
    exfalso. assert (pk1 = pk2) as ->.
    { apply (Hone rel); try done;
        apply (referring_pks_elem_of rel obj st); rewrite E; [left|right; left]. }
    apply NoDup_cons in Hnd as [Hnotin _]. apply Hnotin. left. }
  unfold Changes_filter. eexists. split; [reflexivity|].
  split; [apply order_by_pk_desc_sorted|].
  intros c. rewrite order_by_pk_desc_elem_of, list_elem_of_filter, Q_matches_lookup.
  rewrite Hkeys. split.
  - intros [[(pks & Hlook & Hin)|(rel & Hrel & Hct & Hin)] Hc]; (split; [done|]).
    + left. apply lookup_singleton_Some in Hlook as [Hct <-].
      by apply list_elem_of_singleton in Hin.
    + right. exists rel. split; [done|]. split; [done|].
      by apply (referring_pks_elem_of rel obj st).
  - intros [Hc [[Hct Hpk]|(rel & Hrel & Hct & Href)]]; (split; [|done]).
    + left. exists [obj_id]. rewrite Hct, Hpk. split; [apply lookup_singleton_eq|left].
    + right. exists rel. split; [done|]. split; [done|].
      by apply (referring_pks_elem_of rel obj st).
Qed.

Lemma get_changes_by_obj_union_witness :
  exists rows,
    Changes_get_changes_by_obj Sample.fw Sample.author "1" all_related
        Sample.shelf
      = (Ok rows, Sample.shelf)
    /\ StronglySorted newest_first rows
    /\ forall c, c ∈ rows <->
         c ∈ history Sample.shelf
         /\ ((content_type_id c = 7 /\ object_id c = "1")
             \/ exists rel, rel ∈ related_objects Sample.author
                  /\ content_type_id c = rel_related_model rel
                  /\ row_refers Sample.shelf rel (object_id c) "1").
Proof.
  apply (get_changes_by_obj_union Sample.fw Sample.author "1" all_related
           Sample.shelf "1").
  - reflexivity.
  - by eexists.
  - apply (bool_decide_unpack _). reflexivity.
  - apply (bool_decide_unpack _). reflexivity.
  - intros rel pk1 pk2 Hrel Hkind (row1 & Hrow1 & _) _.
    apply elem_of_cons in Hrel as [->|Hrel].
    + exfalso. unfold Sample.shelf in Hrow1. cbn [live rel_related_model] in Hrow1.
      rewrite !lookup_insert_ne in Hrow1 by (intros [=]).
      by rewrite lookup_singleton_ne in Hrow1 by (intros [=]).
    + apply list_elem_of_singleton in Hrel. subst rel. discriminate Hkind.
Defined.

(** X21. A one-to-many relation of a model to itself takes the place of
    the root: with that relation alone, the query about an object that is
    alive returns the entries of the rows that refer to the root's key
    and nothing else, so the root's own entries are returned only if the
    root refers to itself. *)
Theorem get_changes_by_obj_self_related fw (model : Model) (obj_id : string)
    (rel : Rel) (st : Store) key :
  to_python fw (model_ct model) obj_id = Ok key ->
  is_Some (live st !! (model_ct model, key)) ->
  rel_one_to_one rel = false ->
  rel_related_model rel = model_ct model ->
  exists rows,
    Changes_get_changes_by_obj fw model obj_id (these_related [rel]) st
    = (Ok rows, st)
    /\ forall c, c ∈ rows <->
         c ∈ history st
         /\ content_type_id c = model_ct model
         /\ row_refers st rel (object_id c) key.
Proof.
  intros Hkey [fields Hrow] Hkind Hself.
  unfold Changes_get_changes_by_obj, objects_get, bind, lift. rewrite Hkey, Hrow.
  cbn [for_fold]. unfold bind. rewrite collect_related_unfold, Hkind, Hself.
  cbn [ret]. unfold Changes_filter. eexists. split; [reflexivity|].
  intros c. rewrite order_by_pk_desc_elem_of, list_elem_of_filter, Q_matches_lookup.
  set (obj := mkObj (model_ct model) key fields).
  split.
  - intros [(pks & Hlook & Hin) Hc]. split; [done|].
    apply lookup_insert_Some in Hlook as [[Hct <-]|[Hne Hlook]].
    + split; [done|]. by apply (referring_pks_elem_of rel obj st).
    + apply lookup_singleton_Some in Hlook as [Hct _]. by destruct Hne.
  - intros (Hc & Hct & Href). split; [|done].
    exists (referring_pks rel obj st). rewrite Hct, lookup_insert_eq.
    split; [done|]. by apply (referring_pks_elem_of rel obj st).
Qed.

Lemma get_changes_by_obj_self_related_witness :
  exists rows,
    Changes_get_changes_by_obj Sample.fw Sample.category "1"
      (these_related [mkRel false 5 "parent"]) Sample.tree = (Ok rows, Sample.tree)
    /\ forall c, c ∈ rows <->
         c ∈ history Sample.tree
         /\ content_type_id c = 5
         /\ row_refers Sample.tree (mkRel false 5 "parent") (object_id c) "1".
Proof.
  apply (get_changes_by_obj_self_related Sample.fw Sample.category "1"
           (mkRel false 5 "parent") Sample.tree "1");
    [reflexivity|by eexists|done|done].
Defined.
